(** * CRUD routes of the special-education school API

    A shallow embedding of the six route files under [api/src/routes]
    (users, teachers, students, prof-saude, events, appointments) and of
    the parts of their collaborators that the handlers rely on: the
    Mongoose models they declare, the JavaScript [Date] constructor, the
    strict [moment] parser, the store's [$regex] operator and the Express
    routers that dispatch to the handlers.

    Every handler is a function from the request and the collection of its
    model to a response and the collection afterwards. *)

From Stdlib Require Import ZArith Ascii String List Bool Lia.
From stdpp Require Import gmap strings list fin_maps.

Open Scope string_scope.
Open Scope Z_scope.

(** ** Characters *)

Module Chars.

Definition code (c : ascii) : Z := Z.of_N (N_of_ascii c).

Definition between (lo hi : Z) (c : ascii) : bool :=
  (lo <=? code c) && (code c <=? hi).

Definition isDigit (c : ascii) : bool := between 48 57 c.
Definition isUpper (c : ascii) : bool := between 65 90 c.
Definition isLower (c : ascii) : bool := between 97 122 c.
Definition isAlnum (c : ascii) : bool := isDigit c || isUpper c || isLower c.
Definition isHex (c : ascii) : bool :=
  isDigit c || between 65 70 c || between 97 102 c.

(** Printable 7-bit characters, space included. *)
Definition isPrintable (c : ascii) : bool := between 32 126 c.

Definition toLower (c : ascii) : ascii :=
  if isUpper c then ascii_of_N (N_of_ascii c + 32) else c.

Definition digitValue (c : ascii) : Z := code c - 48.

Definition lowerString (s : string) : string :=
  string_of_list_ascii (map toLower (list_ascii_of_string s)).

End Chars.

(** ** Schemas

    One Mongoose schema per route file.  A path has a type, may be
    required and may have a default. *)

Inductive kind := Users | Teachers | Students | ProfSaude | Events | Appointments.

#[global] Instance kind_eq_dec : EqDecision kind.
Proof. solve_decision. Defined.

Inductive ftype := TString | TDate.

Record path := Path
  { pname : string; ptype : ftype; prequired : bool; pdefault : option string }.

Definition str (n : string) : path := Path n TString false None.
Definition date (n : string) : path := Path n TDate false None.
Definition required (n : string) : path := Path n TString true None.

(** [userSchema], [teacherSchema], [studentSchema], [profissionalSchema],
    [eventSchema] and [appointmentSchema]. *)
Definition schema (k : kind) : list path :=
  match k with
  | Users =>
      [str "nome"; str "email"; str "user"; str "pwd"; str "level"; str "status"]
  | Teachers =>
      [str "name"; str "subject"; str "phone_number"; str "email"; str "status"]
  | Students =>
      [str "name"; str "age"; str "parents"; str "phone_number";
       str "special_needs"; Path "status" TString false (Some "on")]
  | ProfSaude =>
      [required "name"; required "specialty"; required "contact";
       required "phone_number"; required "status"]
  | Events => [str "description"; str "comment"; date "date"]
  | Appointments =>
      [str "specialty"; str "comments"; date "date"; str "student";
       str "professional"]
  end.

(** The [required] list of the swagger block that documents each schema. *)
Definition documentedRequired (k : kind) : list string :=
  match k with
  | Users => ["nome"; "email"; "user"; "pwd"; "level"; "status"]
  | Teachers => ["name"; "subject"; "phone_number"; "email"; "status"]
  | Students => ["name"; "age"; "parents"; "phone_number"; "status"]
  | ProfSaude => ["name"; "specialty"; "contact"; "phone_number"; "status"]
  | Events => ["description"; "comment"; "date"]
  | Appointments => ["specialty"; "comments"; "date"; "student"; "professional"]
  end.

(** The four route files whose [/search] matches a name. *)
Definition nameKinds : list kind := [Users; Teachers; Students; ProfSaude].

(** ** Documents, collections, responses *)

(** A stored value: a string, a date as milliseconds since the epoch, or
    null.  A path that a document does not have is absent from its map. *)
Inductive value := VStr (s : string) | VDate (t : Z) | VNull.

(** A document is its paths; a collection maps [_id] to the document.  An
    ObjectId is kept as its 24 lower-case hexadecimal digits. *)
Abbreviation doc := (gmap string value).
Abbreviation collection := (gmap string doc).

(** A JSON request body: an object with string leaves. *)
Abbreviation reqBody := (gmap string string).

(** What the store and Mongoose throw. *)
Inductive error :=
| CastError (p : string)
| ValidationError
| DuplicateKey
| ImmutableField
| AtomicUpdate
| RegexError.

Inductive result (A : Type) := Ok (a : A) | Throw (e : error).
Arguments Ok {A} a.
Arguments Throw {A} e.

#[global] Instance result_ret : MRet result := fun A a => Ok a.

#[global] Instance result_bind : MBind result := fun A B f r =>
  match r with Ok a => f a | Throw e => Throw e end.

(** The text of an error body: a literal of the handler or [err.message]. *)
Inductive message := Text (s : string) | ErrMessage (e : error).

Inductive payload :=
| Json (i : string) (d : doc)
| JsonArray (l : list (string * doc))
| JsonError (m : message)
| NoBody.

Record response := Response { status : Z; body : payload }.

(** ** The runtime around the handlers

    What the handlers obtain from their environment and this development
    does not fix: the ObjectId the driver generates for a new document,
    the answer of [Date.parse] to a string outside the ECMAScript date-time
    format, the server's time zone, Mongoose's cast of a body string to a
    date, the regular-expression engine of the store outside the fragment
    interpreted in [Regex], and the decoding of escaped bytes above 127 in
    a path. *)

Class Runtime := {
  (** the ObjectId given to a document saved without [_id] *)
  newObjectId : collection -> string;
  (** [Date.parse] on a string that [JSDate.parseISO] does not read;
      [None] is NaN *)
  legacyDateParse : string -> option Z;
  (** [new Date(y, m, d).valueOf()] for the civil day with that day number *)
  localStartOfDay : Z -> Z;
  (** the SchemaDate cast of a body string; [None] is a CastError *)
  castDate : string -> option value;
  (** whether the store compiles a pattern, and its caseless search *)
  pcreValid : string -> bool;
  pcreMatch : string -> string -> bool;
  (** [decodeURIComponent] on a text with an escape of a byte above 127;
      [None] is a URIError *)
  uriDecode : string -> option string
}.

(** ** [Date] *)

Module JSDate.
Import Chars.

Definition msPerDay : Z := 86400000.

Definition isLeapYear (y : Z) : bool :=
  (y mod 4 =? 0) && (negb (y mod 100 =? 0) || (y mod 400 =? 0)).

Definition daysInMonth (y m : Z) : Z :=
  if m =? 2 then (if isLeapYear y then 29 else 28)
  else if (m =? 4) || (m =? 6) || (m =? 9) || (m =? 11) then 30
  else 31.

(** Day number of a civil date, 1970-01-01 being day 0. *)
Definition daysFromCivil (y m d : Z) : Z :=
  let y' := if m <=? 2 then y - 1 else y in
  let era := y' / 400 in
  let yoe := y' - era * 400 in
  let mp := if m <=? 2 then m + 9 else m - 3 in
  let doy := (153 * mp + 2) / 5 + d - 1 in
  let doe := yoe * 365 + yoe / 4 - yoe / 100 + doy in
  era * 146097 + doe - 719468.

Definition num2 (a b : ascii) : Z := 10 * digitValue a + digitValue b.

Definition num4 (a b c d : ascii) : Z := 100 * num2 a b + num2 c d.

Definition isDash (c : ascii) : bool := Ascii.eqb c "-".
Definition isColon (c : ascii) : bool := Ascii.eqb c ":".

Definition validDay (y m d : Z) : bool :=
  (1 <=? m) && (m <=? 12) && (1 <=? d) && (d <=? daysInMonth y m).

(** The date forms [YYYY], [YYYY-MM] and [YYYY-MM-DD] of the date-time
    string format, as year, month and day. *)
Definition dateForm (s : list ascii) : option (Z * Z * Z) :=
  match s with
  | [y1; y2; y3; y4] =>
      if forallb isDigit [y1; y2; y3; y4]
      then Some (num4 y1 y2 y3 y4, 1, 1) else None
  | [y1; y2; y3; y4; s1; m1; m2] =>
      if forallb isDigit [y1; y2; y3; y4; m1; m2] && isDash s1
      then Some (num4 y1 y2 y3 y4, num2 m1 m2, 1) else None
  | [y1; y2; y3; y4; s1; m1; m2; s2; d1; d2] =>
      if forallb isDigit [y1; y2; y3; y4; m1; m2; d1; d2]
         && isDash s1 && isDash s2
      then Some (num4 y1 y2 y3 y4, num2 m1 m2, num2 d1 d2) else None
  | _ => None
  end.

(** The time form [HH:mm:ss] followed by [Z], as milliseconds in the day. *)
Definition timeFormZ (s : list ascii) : option Z :=
  match s with
  | [h1; h2; c1; m1; m2; c2; s1; s2; z] =>
      if forallb isDigit [h1; h2; m1; m2; s1; s2]
         && isColon c1 && isColon c2 && Ascii.eqb z "Z"
         && (num2 h1 h2 <=? 23) && (num2 m1 m2 <=? 59) && (num2 s1 s2 <=? 59)
      then Some (((num2 h1 h2 * 60 + num2 m1 m2) * 60 + num2 s1 s2) * 1000)
      else None
  | _ => None
  end.

(** The text before and after the first [T]. *)
Fixpoint splitT (s : list ascii) : option (list ascii * list ascii) :=
  match s with
  | [] => None
  | c :: r =>
      if Ascii.eqb c "T" then Some ([], r)
      else match splitT r with
           | Some (a, b) => Some (c :: a, b)
           | None => None
           end
  end.

(** Date-time strings [<date form>THH:mm:ssZ] with in-range fields. *)
Definition parseISO (s : string) : option Z :=
  match splitT (list_ascii_of_string s) with
  | Some (ds, ts) =>
      match dateForm ds, timeFormZ ts with
      | Some (y, m, d), Some ms =>
          if validDay y m d then Some (daysFromCivil y m d * msPerDay + ms)
          else None
      | _, _ => None
      end
  | None => None
  end.

(** [new Date(s).valueOf()]; [None] is an Invalid Date. *)
Definition parse `{Runtime} (s : string) : option Z :=
  match parseISO s with
  | Some t => Some t
  | None => legacyDateParse s
  end.

End JSDate.

(** ** [moment] *)

Module Moment.
Import Chars JSDate.

(** [moment(s, 'YYYY-MM-DD', true)]: four digits, two digits and two
    digits between dashes, and nothing else; [isValid()] then wants a
    month and a day of that month. *)
Definition strict (s : string) : option (Z * Z * Z) :=
  match list_ascii_of_string s with
  | [y1; y2; y3; y4; s1; m1; m2; s2; d1; d2] =>
      if forallb isDigit [y1; y2; y3; y4; m1; m2; d1; d2]
         && isDash s1 && isDash s2
         && validDay (num4 y1 y2 y3 y4) (num2 m1 m2) (num2 d1 d2)
      then Some (num4 y1 y2 y3 y4, num2 m1 m2, num2 d1 d2) else None
  | _ => None
  end.

Definition isValid (s : string) : bool :=
  match strict s with Some _ => true | None => false end.

(** [moment(s).startOf('day').toDate()] for a string that [strict] reads:
    the local midnight of that day. *)
Definition startOfDay `{Runtime} (ymd : Z * Z * Z) : Z :=
  let '(y, m, d) := ymd in localStartOfDay (daysFromCivil y m d).

(** [moment(s).endOf('day').toDate()]: one millisecond before the next
    local midnight. *)
Definition endOfDay `{Runtime} (ymd : Z * Z * Z) : Z :=
  let '(y, m, d) := ymd in localStartOfDay (daysFromCivil y m d + 1) - 1.

End Moment.

(** ** The [$regex] operator

    The patterns interpreted here are sequences of atoms, each a plain
    printable character, an escaped punctuation character or a dot,
    followed by at most one of [?], [*] and [+]; the subjects are
    printable 7-bit strings.  Any other pattern or subject is left to
    [pcreValid] and [pcreMatch]. *)

Module Regex.
Import Chars.

Inductive atom := Lit (c : ascii) | Dot.
Inductive quant := One | Opt | Star | Plus.
Inductive token := TAtom (a : atom) | TQuant (q : quant).

Definition isMeta (c : ascii) : bool :=
  existsb (Ascii.eqb c) (list_ascii_of_string "\^$.|?*+()[]{}").

Definition isPlain (c : ascii) : bool := isPrintable c && negb (isMeta c).

Definition quantOf (c : ascii) : option quant :=
  if Ascii.eqb c "?" then Some Opt
  else if Ascii.eqb c "*" then Some Star
  else if Ascii.eqb c "+" then Some Plus
  else None.

Fixpoint tokens (s : list ascii) : option (list token) :=
  match s with
  | [] => Some []
  | c :: r =>
      if Ascii.eqb c "\" then
        match r with
        | e :: r' =>
            if isPrintable e && negb (isAlnum e)
            then cons (TAtom (Lit e)) <$> tokens r' else None
        | [] => None
        end
      else if Ascii.eqb c "." then cons (TAtom Dot) <$> tokens r
      else match quantOf c with
           | Some q => cons (TQuant q) <$> tokens r
           | None =>
               if isPlain c then cons (TAtom (Lit c)) <$> tokens r else None
           end
  end.

Fixpoint items (ts : list token) : option (list (atom * quant)) :=
  match ts with
  | [] => Some []
  | TQuant _ :: _ => None
  | TAtom a :: r =>
      match r with
      | TQuant q :: r' =>
          match r' with
          | TQuant _ :: _ => None
          | _ => cons (a, q) <$> items r'
          end
      | _ => cons (a, One) <$> items r
      end
  end.

Definition parse (pat : string) : option (list (atom * quant)) :=
  tokens (list_ascii_of_string pat) ≫= items.

(** Option [i]: letters are compared without case. *)
Definition atomOk (a : atom) (c : ascii) : bool :=
  match a with
  | Lit x => Ascii.eqb (toLower x) (toLower c)
  | Dot => true
  end.

(** Whether a prefix of the subject matches the items. *)
Fixpoint matchHere (its : list (atom * quant)) (s : list ascii) : bool :=
  match its with
  | [] => true
  | (a, q) :: r =>
      let one (k : list ascii -> bool) (s : list ascii) :=
        match s with c :: t => atomOk a c && k t | [] => false end in
      let many :=
        fix many (s : list ascii) : bool :=
          matchHere r s
          || match s with c :: t => atomOk a c && many t | [] => false end in
      match q with
      | One => one (matchHere r) s
      | Opt => matchHere r s || one (matchHere r) s
      | Star => many s
      | Plus => one many s
      end
  end.

(** Whether the items match somewhere in the subject. *)
Fixpoint search (its : list (atom * quant)) (s : list ascii) : bool :=
  matchHere its s
  || match s with _ :: t => search its t | [] => false end.

Definition printable (s : string) : bool :=
  forallb isPrintable (list_ascii_of_string s).

(** Items without dot or quantifier. *)
Definition literal (its : list (atom * quant)) : bool :=
  forallb (fun it => match it with (Lit _, One) => true | _ => false end) its.

(** The compiled caseless pattern, or [None] when the store rejects it.
    On a subject with other bytes than printable ones the answer is the
    engine's; a literal pattern that occurs bytewise in a subject occurs
    in it for the engine as well. *)
Definition compile `{Runtime} (pat : string) : option (string -> bool) :=
  match parse pat with
  | Some its =>
      Some (fun subject =>
              if printable subject
              then search its (list_ascii_of_string subject)
              else (literal its && search its (list_ascii_of_string subject))
                   || pcreMatch pat subject)
  | None => if pcreValid pat then Some (pcreMatch pat) else None
  end.

End Regex.

(** ** Mongoose models

    The version key that Mongoose adds to a document, update operators and
    dotted paths in a body are outside this model. *)

Module Mongoose.
Import Chars.

(** The cast of a string to ObjectId: 24 hexadecimal digits, in either
    case, name the twelve bytes.  The statements below depend on the cast
    through its outcome only. *)
Definition castObjectId (s : string) : option string :=
  if (Z.of_nat (String.length s) =? 24)
     && forallb isHex (list_ascii_of_string s)
  then Some (lowerString s) else None.

(** The conditions the handlers pass to [find]. *)
Inductive conditions :=
| All
| RegexI (p : string) (pattern : string)
| DateRange (p : string) (gte lt : option Z).

(** The cast of the conditions, as a test on documents.  An Invalid Date
    fails the cast; a pattern the store rejects fails the query. *)
Definition castFilter `{Runtime} (f : conditions) : result (doc -> bool) :=
  match f with
  | All => Ok (fun _ => true)
  | RegexI p pattern =>
      match Regex.compile pattern with
      | Some re =>
          Ok (fun d => match d !! p with Some (VStr s) => re s | _ => false end)
      | None => Throw RegexError
      end
  | DateRange p (Some a) (Some b) =>
      Ok (fun d =>
            match d !! p with
            | Some (VDate t) => (a <=? t) && (t <? b)
            | _ => false
            end)
  | DateRange p _ _ => Throw (CastError p)
  end.

Definition select (test : doc -> bool) (c : collection) : collection :=
  filter (fun kv : string * doc => Is_true (test kv.2)) c.

(** The defaults that a schema declares, as a document. *)
Fixpoint defaults (ps : list path) : doc :=
  match ps with
  | [] => ∅
  | p :: r =>
      match pdefault p with
      | Some dflt => <[pname p := VStr dflt]> (defaults r)
      | None => defaults r
      end
  end.

(** The document that Mongoose builds from a stored one: what is stored,
    and the default of every path that the stored document lacks. *)
Definition hydrate (k : kind) (d : doc) : doc := d ∪ defaults (schema k).

(** [Model.find(conditions)]: the store selects, Mongoose hydrates. *)
Definition find `{Runtime} (k : kind) (f : conditions) (c : collection)
  : result (list (string * doc)) :=
  test ← castFilter f; Ok (map_to_list (hydrate k <$> select test c)).

(** [Model.findById(id)] *)
Definition findById (k : kind) (id : string) (c : collection)
  : result (option (string * doc)) :=
  match castObjectId id with
  | None => Throw (CastError "_id")
  | Some i => Ok ((fun d => (i, hydrate k d)) <$> c !! i)
  end.

(** The cast of one body value to the type of its path. *)
Definition castValue `{Runtime} (p : path) (s : string) : result value :=
  match ptype p with
  | TString => Ok (VStr s)
  | TDate =>
      match castDate s with
      | Some v => Ok v
      | None => Throw (CastError (pname p))
      end
  end.

(** [new Model(body)]: the paths of the schema that the body has, cast,
    and the defaults of those it lacks; other keys are dropped.  A value
    that does not cast is an error that [save] reports. *)
Fixpoint construct `{Runtime} (ps : list path) (b : reqBody) : result doc :=
  match ps with
  | [] => Ok ∅
  | p :: r =>
      d ← construct r b;
      match b !! pname p with
      | Some s => v ← castValue p s; Ok (<[pname p := v]> d)
      | None =>
          match pdefault p with
          | Some dflt => Ok (<[pname p := VStr dflt]> d)
          | None => Ok d
          end
      end
  end.

(** The [required] validator: a date, or a string that is not empty. *)
Definition present (v : option value) : bool :=
  match v with
  | Some (VStr s) => negb (String.eqb s "")
  | Some (VDate _) => true
  | _ => false
  end.

Definition validate (ps : list path) (d : doc) : bool :=
  forallb (fun p => negb (prequired p) || present (d !! pname p)) ps.

(** The [_id] of a new document: the one of the body, or a generated one. *)
Definition assignId `{Runtime} (b : reqBody) (c : collection) : result string :=
  match b !! "_id" with
  | Some s =>
      match castObjectId s with
      | Some i => Ok i
      | None => Throw (CastError "_id")
      end
  | None => Ok (newObjectId c)
  end.

(** [new Model(body)] followed by [save()]: a value that did not cast is
    reported by the validation of [save]. *)
Definition save `{Runtime} (k : kind) (b : reqBody) (c : collection)
  : result (string * doc * collection) :=
  i ← assignId b c;
  match construct (schema k) b with
  | Throw _ => Throw ValidationError
  | Ok d =>
      if negb (validate (schema k) d) then Throw ValidationError
      else match c !! i with
           | Some _ => Throw DuplicateKey
           | None => Ok (i, d, <[i := d]> c)
           end
  end.

(** The update operators of MongoDB.  Mongoose reads a key of the body
    with one of these names as the operator, whose value has to be an
    object. *)
Definition updateOperators : list string :=
  ["$currentDate"; "$inc"; "$min"; "$max"; "$mul"; "$rename"; "$set";
   "$setOnInsert"; "$unset"; "$addToSet"; "$pop"; "$pull"; "$push";
   "$pullAll"; "$bit"].

Definition hasOperator (b : reqBody) : bool :=
  existsb (fun op => match b !! op with Some _ => true | None => false end)
    updateOperators.

(** The paths of the schema that the body has, cast. *)
Fixpoint castPaths `{Runtime} (ps : list path) (b : reqBody) : result doc :=
  match ps with
  | [] => Ok ∅
  | p :: r =>
      d ← castPaths r b;
      match b !! pname p with
      | Some s => v ← castValue p s; Ok (<[pname p := v]> d)
      | None => Ok d
      end
  end.

(** The cast of an update: an operator with a string for its value is an
    invalid atomic update; otherwise the body is what [$set] sets, the
    paths of the schema that it has. *)
Definition castUpdate `{Runtime} (ps : list path) (b : reqBody) : result doc :=
  if hasOperator b then Throw AtomicUpdate else castPaths ps b.

(** The [_id] an update would set, when the body has one. *)
Definition updateId (b : reqBody) : result (option string) :=
  match b !! "_id" with
  | Some s =>
      match castObjectId s with
      | Some j => Ok (Some j)
      | None => Throw (CastError "_id")
      end
  | None => Ok None
  end.

(** [Model.findByIdAndUpdate(id, body, { new: true })]: the store sets the
    cast paths on the stored document, Mongoose hydrates the result. *)
Definition findByIdAndUpdate `{Runtime} (k : kind) (id : string) (b : reqBody)
  (c : collection) : result (option (string * doc) * collection) :=
  match castObjectId id with
  | None => Throw (CastError "_id")
  | Some i =>
      u ← castUpdate (schema k) b;
      j ← updateId b;
      match c !! i with
      | None => Ok (None, c)
      | Some d =>
          if bool_decide (j = None ∨ j = Some i)
          then Ok (Some (i, hydrate k (u ∪ d)), <[i := u ∪ d]> c)
          else Throw ImmutableField
      end
  end.

(** [Model.findByIdAndDelete(id)] *)
Definition findByIdAndDelete (id : string) (c : collection)
  : result (option (string * doc) * collection) :=
  match castObjectId id with
  | None => Throw (CastError "_id")
  | Some i =>
      match c !! i with
      | None => Ok (None, c)
      | Some d => Ok (Some (i, d), delete i c)
      end
  end.

End Mongoose.

(** ** The route handlers

    The six route files register the same six handlers on their own model;
    [k] says which file.  They differ in the query parameter and the
    conditions of [/search], in their messages, and in the status that
    [GET /] gives to a failure. *)

Module Routes.
Import Mongoose.

Definition dq : string := String (ascii_of_nat 34) "".

Definition searchParam (k : kind) : string :=
  match k with
  | Users => "nome"
  | Teachers | Students | ProfSaude => "name"
  | Events | Appointments => "date"
  end.

Definition missingParam (k : kind) : string :=
  match k with
  | Events | Appointments =>
      "Parâmetro " ++ dq ++ "date" ++ dq ++ " é obrigatório no formato YYYY-MM-DD."
  | _ => "Parâmetro " ++ dq ++ searchParam k ++ dq ++ " é obrigatório."
  end.

Definition noneFound (k : kind) : string :=
  match k with
  | Users => "Nenhum usuário encontrado."
  | Teachers => "Nenhum professor encontrado."
  | Students => "Nenhum estudante encontrado."
  | ProfSaude => "Nenhum profissional encontrado"
  | Events => "Nenhum evento encontrado"
  | Appointments => "Nenhum agendamento encontrado"
  end.

Definition notFound (k : kind) : string :=
  match k with
  | Users => "Usuário não encontrado!"
  | Teachers => "Professor não encontrado!"
  | Students => "Estudante não encontrado!"
  | ProfSaude => "Profissional não encontrado"
  | Events => "Evento não encontrado"
  | Appointments => "Agendamento não encontrado"
  end.

(** [req.query.<param>]: absent, or a string.  [!param] holds of an absent
    parameter and of the empty string. *)
Definition falsy (q : option string) : bool :=
  match q with
  | None => true
  | Some v => String.eqb v ""
  end.

(** The conditions that [/search] builds once its guard has let the
    parameter through; [None] when the guard answers 400.

    - users, teachers, students, prof-saude:
      [{ name: { $regex: name, $options: 'i' } }] behind [!name];
    - events: [$gte new Date(`${date}T00:00:00Z`)] and
      [$lt new Date(`${date}T23:59:59Z`)] behind [!date];
    - appointments: [$gte moment(date).startOf('day')] and
      [$lt moment(date).endOf('day')] behind
      [!date || !moment(date, 'YYYY-MM-DD', true).isValid()]. *)
Definition searchConditions `{Runtime} (k : kind) (q : option string)
  : option conditions :=
  match q with
  | None => None
  | Some v =>
      if falsy q then None
      else match k with
           | Events =>
               Some (DateRange "date"
                       (JSDate.parse (v ++ "T00:00:00Z"))
                       (JSDate.parse (v ++ "T23:59:59Z")))
           | Appointments =>
               match Moment.strict v with
               | Some ymd =>
                   Some (DateRange "date"
                           (Some (Moment.startOfDay ymd))
                           (Some (Moment.endOfDay ymd)))
               | None => None
               end
           | _ => Some (RegexI (searchParam k) v)
           end
  end.

(** [router.get('/search', ...)] *)
Definition search `{Runtime} (k : kind) (q : option string) (c : collection)
  : response * collection :=
  match searchConditions k q with
  | None => (Response 400 (JsonError (Text (missingParam k))), c)
  | Some f =>
      match find k f c with
      | Ok [] => (Response 404 (JsonError (Text (noneFound k))), c)
      | Ok l => (Response 200 (JsonArray l), c)
      | Throw e => (Response 400 (JsonError (ErrMessage e)), c)
      end
  end.

(** [router.get('/', ...)] *)
Definition getAll `{Runtime} (k : kind) (c : collection)
  : response * collection :=
  match find k All c with
  | Ok l => (Response 200 (JsonArray l), c)
  | Throw e =>
      (Response (match k with ProfSaude => 500 | _ => 400 end)
         (JsonError (ErrMessage e)), c)
  end.

(** [router.get('/:id', ...)] *)
Definition getById (k : kind) (id : string) (c : collection)
  : response * collection :=
  match findById k id c with
  | Ok None => (Response 404 (JsonError (Text (notFound k))), c)
  | Ok (Some (i, d)) => (Response 200 (Json i d), c)
  | Throw e => (Response 400 (JsonError (ErrMessage e)), c)
  end.

(** [router.post('/', ...)] *)
Definition create `{Runtime} (k : kind) (b : reqBody) (c : collection)
  : response * collection :=
  match save k b c with
  | Ok (i, d, c') => (Response 201 (Json i d), c')
  | Throw e => (Response 400 (JsonError (ErrMessage e)), c)
  end.

(** [router.put('/:id', ...)] *)
Definition update `{Runtime} (k : kind) (id : string) (b : reqBody)
  (c : collection) : response * collection :=
  match findByIdAndUpdate k id b c with
  | Ok (None, c') => (Response 404 (JsonError (Text (notFound k))), c')
  | Ok (Some (i, d), c') => (Response 200 (Json i d), c')
  | Throw e => (Response 400 (JsonError (ErrMessage e)), c)
  end.

(** [router.delete('/:id', ...)] *)
Definition remove (k : kind) (id : string) (c : collection)
  : response * collection :=
  match findByIdAndDelete id c with
  | Ok (None, c') => (Response 404 (JsonError (Text (notFound k))), c')
  | Ok (Some _, c') => (Response 204 NoBody, c')
  | Throw e => (Response 400 (JsonError (ErrMessage e)), c)
  end.

End Routes.

(** ** The routers

    Each route file registers its six handlers on a router, in the order
    of [table]; [index.js] mounts the six routers and the swagger page on
    the router that the application mounts under [/api], and the
    application mounts the swagger page under [/api-docs] as well.

    A request path is kept as its segments between slashes, as they were
    sent: not decoded, and not empty.  Routers compare the segments with
    their prefixes and literals without case and take the first layer
    that matches; the segment that [/:id] captures is decoded into
    [req.params.id].  The methods are the four that the route files
    register; the page that swagger serves is not described. *)

Module Express.
Import Chars Routes.

Inductive method := GET | POST | PUT | DELETE.

#[global] Instance method_eq_dec : EqDecision method.
Proof. solve_decision. Defined.

(** The paths [/], [/search] and [/:id]. *)
Inductive pattern := Root | Literal (l : string) | Param.

Definition sameSegment (a b : string) : bool :=
  String.eqb (lowerString a) (lowerString b).

(** Whether the rest of the path matches, and the segment that [:id]
    captures if so. *)
Definition matchPath (p : pattern) (segs : list string)
  : option (option string) :=
  match p, segs with
  | Root, [] => Some None
  | Literal l, [s] => if sameSegment s l then Some None else None
  | Param, [s] => if String.eqb s "" then None else Some (Some s)
  | _, _ => None
  end.

(** The value of a hexadecimal digit. *)
Definition hexValue (c : ascii) : option Z :=
  if isDigit c then Some (code c - 48)
  else if between 65 70 c then Some (code c - 55)
  else if between 97 102 c then Some (code c - 87)
  else None.

Inductive decoded := Decoded (s : list ascii) | URIError | NotAscii.

(** [decodeURIComponent] as far as the escapes are of bytes below 128. *)
Fixpoint percentDecode (s : list ascii) : decoded :=
  match s with
  | [] => Decoded []
  | c :: r =>
      if Ascii.eqb c "%" then
        match r with
        | h :: l :: r' =>
            match hexValue h, hexValue l with
            | Some a, Some b =>
                if 16 * a + b <? 128 then
                  match percentDecode r' with
                  | Decoded t =>
                      Decoded (ascii_of_N (Z.to_N (16 * a + b)) :: t)
                  | e => e
                  end
                else NotAscii
            | _, _ => URIError
            end
        | _ => URIError
        end
      else
        match percentDecode r with
        | Decoded t => Decoded (c :: t)
        | e => e
        end
  end.

(** [req.params.id] for a captured segment; [None] when it does not
    decode. *)
Definition decodeParam `{Runtime} (s : string) : option string :=
  match percentDecode (list_ascii_of_string s) with
  | Decoded t => Some (string_of_list_ascii t)
  | URIError => None
  | NotAscii => uriDecode s
  end.

Inductive action := Search | List | Get | Create | Update | Delete.

(** The layers of a route file, in the order of registration. *)
Definition table : list (method * pattern * action) :=
  [ (GET, Literal "search", Search);
    (GET, Root, List);
    (GET, Param, Get);
    (POST, Root, Create);
    (PUT, Param, Update);
    (DELETE, Param, Delete) ].

(** What a router finds for a request: a handler with its parameter, a
    captured segment that does not decode, or no layer. *)
Inductive routed :=
| Handler (a : action) (param : option string)
| BadParam
| NoLayer.

(** A layer matches by its path first, decoding what it captures, and by
    its method next. *)
Fixpoint route `{Runtime} (t : list (method * pattern * action)) (m : method)
  (segs : list string) : routed :=
  match t with
  | [] => NoLayer
  | (m', p, a) :: rest =>
      match matchPath p segs with
      | None => route rest m segs
      | Some None =>
          if bool_decide (m' = m) then Handler a None else route rest m segs
      | Some (Some raw) =>
          match decodeParam raw with
          | None => BadParam
          | Some s =>
              if bool_decide (m' = m) then Handler a (Some s)
              else route rest m segs
          end
      end
  end.

Record request := Request {
  rmethod : method;
  rpath : list string;
  rquery : gmap string string;
  rbody : reqBody
}.

(** The handler of a layer, on the collection of the model of its file. *)
Definition run `{Runtime} (k : kind) (a : action) (param : option string)
  (req : request) (c : collection) : response * collection :=
  match a with
  | Search => search k (rquery req !! searchParam k) c
  | List => getAll k c
  | Get => getById k (default "" param) c
  | Create => create k (rbody req) c
  | Update => update k (default "" param) (rbody req) c
  | Delete => remove k (default "" param) c
  end.

Inductive target := Model (k : kind) | Swagger.

(** The [router.use] lines of [index.js]. *)
Definition mounts : list (string * target) :=
  [ ("users", Model Users);
    ("teachers", Model Teachers);
    ("students", Model Students);
    ("prof-saude", Model ProfSaude);
    ("events", Model Events);
    ("appointments", Model Appointments);
    ("api-docs", Swagger) ].

(** One collection per model. *)
Abbreviation database := (kind -> collection).

Definition setCollection (k : kind) (c : collection) (st : database)
  : database :=
  fun k' => if bool_decide (k' = k) then c else st k'.

(** A JSON answer of a handler, the swagger page, the 400 that Express
    gives to a segment that does not decode, or no layer at all. *)
Inductive outcome := Answer (r : response) | SwaggerUI | BadRequest | NoRoute.

(** The layers of [index.js] on the path below [/api]: the first mount
    whose prefix is the segment and whose router has a layer for the
    rest. *)
Fixpoint useAll `{Runtime} (ms : list (string * target)) (req : request)
  (seg : string) (sub : list string) (st : database) : outcome * database :=
  match ms with
  | [] => (NoRoute, st)
  | (prefix, t) :: rest =>
      if sameSegment seg prefix then
        match t with
        | Swagger => (SwaggerUI, st)
        | Model k =>
            match route table (rmethod req) sub with
            | Handler a param =>
                let '(r, c) := run k a param req (st k) in
                (Answer r, setCollection k c st)
            | BadParam => (BadRequest, st)
            | NoLayer => useAll rest req seg sub st
            end
        end
      else useAll rest req seg sub st
  end.

(** [app.use('/api', routes)] and [app.use('/api-docs', ...)]. *)
Definition app `{Runtime} (req : request) (st : database)
  : outcome * database :=
  match rpath req with
  | a :: rest =>
      if sameSegment a "api" then
        match rest with
        | seg :: sub => useAll mounts req seg sub st
        | [] => (NoRoute, st)
        end
      else if sameSegment a "api-docs" then (SwaggerUI, st)
      else (NoRoute, st)
  | [] => (NoRoute, st)
  end.

(** The prefix under which [index.js] mounts a route file. *)
Definition prefixOf (k : kind) : string :=
  match k with
  | Users => "users"
  | Teachers => "teachers"
  | Students => "students"
  | ProfSaude => "prof-saude"
  | Events => "events"
  | Appointments => "appointments"
  end.

End Express.

(** ** The generator of ObjectIds

    What the handlers rely on from the generator of the driver: an
    identifier that casts to itself and, as long as the collection holds
    fewer documents than there are identifiers of twelve bytes, one that
    the collection does not use. *)


(** A generator for the examples: the identifiers are the numbers below
    2^96 in 24 hexadecimal digits, and a new document gets the first one
    that is free, counting from a fixed one. *)

Module Bson.

Definition space : Z := 2 ^ 96.

Definition hexDigit (z : Z) : ascii :=
  ascii_of_N (Z.to_N (if z <? 10 then 48 + z else 87 + z)).

(** The [n] low digits of a number, the lowest first. *)
Fixpoint digits (n : nat) (z : Z) : list ascii :=
  match n with
  | O => []
  | S n' => hexDigit (z mod 16) :: digits n' (z / 16)
  end.

Definition objectId (z : Z) : string :=
  string_of_list_ascii (rev (digits 24 z)).

Definition first : Z := 31344583323783834122989028711.

Definition candidate (n : nat) : string :=
  objectId ((first + Z.of_nat n) mod space).

Definition free (c : collection) (i : string) : bool :=
  match c !! i with None => true | Some _ => false end.

Definition generate (c : collection) : string :=
  match List.find (fun n => free c (candidate n)) (seq 0 (S (size c))) with
  | Some n => candidate n
  | None => candidate 0
  end.

End Bson.

(** ** A server in UTC

    A runtime for running the handlers on examples: the server's zone is
    UTC; the engine outside the fragment rejects every pattern; beyond
    [JSDate.parseISO], [Date] reads the date forms without a time, as UTC,
    and days up to 31 in every month, rolling over; a body date is null
    when empty and otherwise what [Date] reads; escapes of bytes above
    127 do not decode; new documents get their ObjectId from
    [Bson.generate]. *)

Module V8.
Import JSDate.

Definition lenientDay (m d : Z) : bool :=
  (1 <=? m) && (m <=? 12) && (1 <=? d) && (d <=? 31).

Definition parse (s : string) : option Z :=
  match splitT (list_ascii_of_string s) with
  | Some (ds, ts) =>
      match dateForm ds, timeFormZ ts with
      | Some (y, m, d), Some ms =>
          if lenientDay m d then Some (daysFromCivil y m d * msPerDay + ms)
          else None
      | _, _ => None
      end
  | None =>
      match dateForm (list_ascii_of_string s) with
      | Some (y, m, d) =>
          if lenientDay m d then Some (daysFromCivil y m d * msPerDay)
          else None
      | None => None
      end
  end.

End V8.

Definition utc : Runtime := {|
  newObjectId := Bson.generate;
  legacyDateParse := V8.parse;
  localStartOfDay := fun n => n * JSDate.msPerDay;
  castDate := fun s =>
    if String.eqb s "" then Some VNull else VDate <$> V8.parse s;
  pcreValid := fun _ => false;
  pcreMatch := fun _ _ => false;
  uriDecode := fun _ => None
|}.

(** ** Example data *)

Definition aUser : doc :=
  {[ "nome" := VStr "Caio Hobold"; "email" := VStr "caio.hobold@nextfit.com.br";
     "user" := VStr "caio.hobold"; "pwd" := VStr "password123";
     "level" := VStr "admin"; "status" := VStr "on" ]}.

Definition someUsers : collection :=
  {[ "6547a1b2c3d4e5f6a7b8c9d0" := aUser ]}.

Definition aTeacher : doc :=
  {[ "name" := VStr "Calypso"; "subject" := VStr "Artes";
     "phone_number" := VStr "48 9696 5858"; "email" := VStr "calypso@escola.com";
     "status" := VStr "on" ]}.

Definition someTeachers : collection :=
  {[ "6547a1b2c3d4e5f6a7b8c9d1" := aTeacher ]}.

(** An event on 2023-11-05 at 23:59:59 UTC. *)
Definition lateEvent : doc :=
  {[ "description" := VStr "Evento Exemplo";
     "comment" := VStr "Comentários sobre o evento";
     "date" := VDate 1699228799000 ]}.

Definition lateEvents : collection :=
  {[ "6547a1b2c3d4e5f6a7b8c9d2" := lateEvent ]}.

(** An appointment on 2023-11-05 at 23:59:59 UTC. *)
Definition lateAppointment : doc :=
  {[ "specialty" := VStr "Fisioterapeuta"; "comments" := VStr "Realizar sessão";
     "date" := VDate 1699228799000; "student" := VStr "Bingo Heeler";
     "professional" := VStr "Winton Blake" ]}.

Definition lateAppointments : collection :=
  {[ "6547a1b2c3d4e5f6a7b8c9d4" := lateAppointment ]}.

(** A collection with one document whose name path holds [name], under
    the name path of the route file [k]. *)
Definition named (k : kind) (name : string) : collection :=
  {[ "6547a1b2c3d4e5f6a7b8c9d3" := {[ Routes.searchParam k := VStr name ]} ]}.

(** Databases whose six collections hold the same documents. *)
Definition usersDb : Express.database := fun _ => someUsers.

Definition studentsDb : Express.database :=
  fun _ => named Students "Bingo Heeler".

(** ** Predicates of the statements *)

(** The body supplies paths of the schema only. *)
Definition suppliesOnly (k : kind) (b : reqBody) : Prop :=
  map_Forall (fun f _ => f ∈ pname <$> schema k) b.

(** The test on documents that [/search] runs: [None] when the guard of
    the handler stops the parameter or the store refuses the conditions. *)
Definition accepted `{Runtime} (k : kind) (q : option string)
  : option (doc -> bool) :=
  f ← Routes.searchConditions k q;
  match Mongoose.castFilter f with Ok test => Some test | Throw _ => None end.

(** The name holds the value up to the case of letters: some run of
    consecutive characters of the name is the value when both are put in
    lower case. *)
Definition occursCI (v n : string) : Prop :=
  exists p m s,
    list_ascii_of_string n = (p ++ m ++ s)%list
    /\ map Chars.toLower m = map Chars.toLower (list_ascii_of_string v).

(** The value is made of plain characters: printable, and none of the
    characters that a pattern reads as an operator. *)
Definition plain (v : string) : bool :=
  forallb Regex.isPlain (list_ascii_of_string v).

(** A handler's answer to a search for the documents that satisfy [P]:
    404 when none does, else 200 with them in a non-empty sequence; the
    collection stays. *)
Definition finds (k : kind) (r : response * collection) (c : collection)
  (P : doc -> Prop) : Prop :=
  r.2 = c
  /\ ((r.1 = Response 404 (JsonError (Text (Routes.noneFound k)))
       /\ forall i d, c !! i = Some d -> ~ P d)
      \/ exists l,
           r.1 = Response 200 (JsonArray l)
           /\ l <> []
           /\ forall i d, (i, d) ∈ l <-> c !! i = Some d /\ P d).

(** The same answer with the documents as Mongoose hydrates them: 404
    when no document satisfies [P], else 200 with the hydrated documents
    that satisfy it, each once, in a non-empty sequence; the collection
    stays. *)
Definition shows (k : kind) (r : response * collection) (c : collection)
  (P : doc -> Prop) : Prop :=
  r.2 = c
  /\ ((r.1 = Response 404 (JsonError (Text (Routes.noneFound k)))
       /\ forall i d, c !! i = Some d -> ~ P d)
      \/ exists l,
           r.1 = Response 200 (JsonArray l)
           /\ l <> []
           /\ NoDup l
           /\ forall i d',
                (i, d') ∈ l
                <-> exists d, c !! i = Some d /\ P d
                              /\ d' = Mongoose.hydrate k d).

(** The date of the document is in the half-open interval. *)
Definition dateWithin (a b : Z) (d : doc) : Prop :=
  exists t, d !! "date" = Some (VDate t) /\ a <= t < b.

(** The name of the document, at the name path of the route file, holds
    the value up to the case of letters. *)
Definition nameHolds (k : kind) (v : string) (d : doc) : Prop :=
  exists n, d !! Routes.searchParam k = Some (VStr n) /\ occursCI v n.

(** Every name of the collection is made of printable characters. *)
Definition printableNames (k : kind) (c : collection) : Prop :=
  forall i d n,
    c !! i = Some d -> d !! Routes.searchParam k = Some (VStr n) ->
    Regex.printable n = true.

(** * Properties *)

Import Chars Mongoose Routes.

(** ** Dates and identifiers on examples *)

Example epoch_day : JSDate.daysFromCivil 1970 1 1 = 0.
Proof. reflexivity. Qed.

Example leap_day : JSDate.daysFromCivil 2024 3 1 = JSDate.daysFromCivil 2024 2 29 + 1.
Proof. reflexivity. Qed.

Example no_leap_day : JSDate.parseISO "2023-02-29T00:00:00Z" = None.
Proof. reflexivity. Qed.

Example swagger_event_date :
  JSDate.parseISO "2023-11-05T14:00:00Z" = Some 1699192800000.
Proof. reflexivity. Qed.

Example strict_wants_two_digits : Moment.strict "2023-11-5" = None.
Proof. reflexivity. Qed.

Example strict_reads_a_day : Moment.strict "2023-11-05" = Some (2023, 11, 5).
Proof. reflexivity. Qed.

Example objectId_lower_case :
  castObjectId "6547A1B2C3D4E5F6A7B8C9D0" = Some "6547a1b2c3d4e5f6a7b8c9d0".
Proof. reflexivity. Qed.

Example search_is_no_objectId : castObjectId "search" = None.
Proof. reflexivity. Qed.

Lemma daysFromCivil_next (y m d : Z) :
  JSDate.daysFromCivil y m (d + 1) = JSDate.daysFromCivil y m d + 1.
Proof. unfold JSDate.daysFromCivil. lia. Qed.

(** ** Identifiers *)

Lemma toLower_idemp (c : ascii) : toLower (toLower c) = toLower c.
Proof.
  destruct c as [[] [] [] [] [] [] [] []]; reflexivity.
Qed.

Lemma isHex_toLower (c : ascii) : isHex c = true -> isHex (toLower c) = true.
Proof.
  destruct c as [[] [] [] [] [] [] [] []]; vm_compute; congruence.
Qed.

Lemma lowerString_length (s : string) :
  String.length (lowerString s) = String.length s.
Proof.
  unfold lowerString. induction s as [|a s IH]; simpl; [reflexivity|].
  now rewrite IH.
Qed.

Lemma lowerString_chars (s : string) :
  list_ascii_of_string (lowerString s) = map toLower (list_ascii_of_string s).
Proof.
  unfold lowerString. now rewrite list_ascii_of_string_of_list_ascii.
Qed.

Lemma lowerString_idemp (s : string) : lowerString (lowerString s) = lowerString s.
Proof.
  unfold lowerString at 1. rewrite lowerString_chars.
  unfold lowerString. f_equal.
  rewrite map_map. apply map_ext. intros c. apply toLower_idemp.
Qed.

Lemma forallb_isHex_lower (l : list ascii) :
  forallb isHex l = true -> forallb isHex (map toLower l) = true.
Proof.
  induction l as [|c l IH]; simpl; [reflexivity|].
  intros [Hc Hl]%andb_true_iff.
  now rewrite isHex_toLower, IH.
Qed.

(** A cast ObjectId is its own cast: the identifier a response shows can
    be sent back as it is. *)
Lemma castObjectId_canonical (s i : string) :
  castObjectId s = Some i -> castObjectId i = Some i.
Proof.
  unfold castObjectId.
  destruct (_ && _) eqn:E; [|discriminate].
  intros [= <-].
  apply andb_true_iff in E as [Hlen Hhex].
  rewrite lowerString_length, Hlen, lowerString_chars. simpl.
  rewrite (forallb_isHex_lower _ Hhex).
  now rewrite lowerString_idemp.
Qed.

(** ** The generator of ObjectIds *)
















(** ** Documents as Mongoose answers them *)

Lemma union_absorb (d m : doc) :
  (forall f, is_Some (m !! f) -> is_Some (d !! f)) -> d ∪ m = d.
Proof.
  intros Hm. apply map_eq. intros f.
  destruct (d !! f) as [v|] eqn:E.
  - now apply lookup_union_Some_l.
  - rewrite lookup_union_r by exact E.
    destruct (m !! f) as [w|] eqn:E2; [|reflexivity].
    destruct (Hm f) as [v Hv]; [eauto|]. congruence.
Qed.

Lemma hydrate_lookup (k : kind) (d : doc) (f : string) :
  hydrate k d !! f
  = match d !! f with
    | Some v => Some v
    | None => defaults (schema k) !! f
    end.
Proof.
  unfold hydrate. destruct (d !! f) as [v|] eqn:E.
  - now apply lookup_union_Some_l.
  - now apply lookup_union_r.
Qed.

(** Only [studentSchema] declares a default. *)
Lemma hydrate_no_default (k : kind) (d : doc) :
  k <> Students -> hydrate k d = d.
Proof.
  intros Hk. unfold hydrate.
  destruct k; try congruence; apply (right_id_L ∅ (∪)).
Qed.

Lemma defaults_Students :
  defaults (schema Students) = {[ "status" := VStr "on" ]}.
Proof. reflexivity. Qed.

Lemma defaults_status (k : kind) (f : string) :
  f <> "status" -> defaults (schema k) !! f = None.
Proof.
  intros Hf. destruct k; try apply lookup_empty.
  rewrite defaults_Students. now apply lookup_singleton_ne.
Qed.

(** Hydration leaves the name and the date of a document as stored. *)
Lemma hydrate_name (k : kind) (d : doc) :
  hydrate k d !! searchParam k = d !! searchParam k.
Proof.
  rewrite hydrate_lookup. destruct (d !! searchParam k); [reflexivity|].
  apply defaults_status. now destruct k.
Qed.

Lemma hydrate_date (k : kind) (d : doc) :
  hydrate k d !! "date" = d !! "date".
Proof.
  rewrite hydrate_lookup. destruct (d !! "date"); [reflexivity|].
  now apply defaults_status.
Qed.

Lemma hydrate_idemp (k : kind) (d : doc) :
  hydrate k (hydrate k d) = hydrate k d.
Proof.
  unfold hydrate. rewrite <- (assoc_L (∪)). now rewrite (idemp_L (∪)).
Qed.

(** A constructed document has its defaults: hydration adds nothing. *)
Lemma construct_defaults `{Runtime} (ps : list path) (b : reqBody) (d : doc)
  (f : string) :
  construct ps b = Ok d -> is_Some (defaults ps !! f) -> is_Some (d !! f).
Proof.
  revert d. induction ps as [|p ps IH]; intros d; simpl.
  - intros _ [v Hv]. now rewrite lookup_empty in Hv.
  - destruct (construct ps b) as [d0|e]; [|discriminate].
    cbn [mbind result_bind]. specialize (IH d0 eq_refl).
    destruct (b !! pname p) as [s|].
    + destruct (castValue p s) as [v|e]; [|discriminate].
      cbn [mbind result_bind]. intros [= <-] Hdef.
      destruct (decide (pname p = f)) as [->|Hne].
      * rewrite lookup_insert_eq. eauto.
      * rewrite lookup_insert_ne by exact Hne. apply IH.
        destruct (pdefault p); [|exact Hdef].
        now rewrite lookup_insert_ne in Hdef.
    + destruct (pdefault p) as [dflt|].
      * intros [= <-] Hdef.
        destruct (decide (pname p = f)) as [->|Hne].
        -- rewrite lookup_insert_eq. eauto.
        -- rewrite lookup_insert_ne in Hdef |- * by exact Hne. now apply IH.
      * intros [= <-]. exact IH.
Qed.

Lemma hydrate_construct `{Runtime} (k : kind) (b : reqBody) (d : doc) :
  construct (schema k) b = Ok d -> hydrate k d = d.
Proof.
  intros Hd. apply union_absorb. intros f. now apply construct_defaults with b.
Qed.

(** ** Malformed identifiers *)

(** C7. In every route file, [GET /:id], [PUT /:id] and [DELETE /:id]
    answer an identifier that does not cast to ObjectId with status 400
    and the JSON body [{ error: err.message }] of the cast error; each
    handler returns a response, and the collection is the one it was. *)
Theorem malformed_id_bad_request `{Runtime} (k : kind) (id : string)
  (b : reqBody) (c : collection) :
  castObjectId id = None ->
  getById k id c = (Response 400 (JsonError (ErrMessage (CastError "_id"))), c)
  /\ update k id b c
     = (Response 400 (JsonError (ErrMessage (CastError "_id"))), c)
  /\ remove k id c
     = (Response 400 (JsonError (ErrMessage (CastError "_id"))), c).
Proof.
  intros Hid.
  unfold getById, update, remove, findById, findByIdAndUpdate, findByIdAndDelete.
  rewrite Hid. repeat split.
Qed.

Lemma malformed_id_bad_request_witness :
  castObjectId "not-an-id" = None
  /\ (getById Users "not-an-id" ∅
      = (Response 400 (JsonError (ErrMessage (CastError "_id"))), ∅)
      /\ @update utc Users "not-an-id" {[ "status" := "off" ]} ∅
         = (Response 400 (JsonError (ErrMessage (CastError "_id"))), ∅)
      /\ remove Users "not-an-id" ∅
         = (Response 400 (JsonError (ErrMessage (CastError "_id"))), ∅)).
Proof.
  split; [reflexivity|].
  apply (@malformed_id_bad_request utc Users "not-an-id"); reflexivity.
Defined.

(** ** Delete *)

(** C8. [DELETE /:id] on an identifier of the collection answers 204 with
    no body and leaves the collection without that document and with every
    other one; the same request again answers 404 and leaves the collection
    as the first request left it. *)
Theorem remove_twice (k : kind) (id i : string) (d : doc) (c : collection) :
  castObjectId id = Some i ->
  c !! i = Some d ->
  remove k id c = (Response 204 NoBody, delete i c)
  /\ delete i c !! i = None
  /\ (forall j, j <> i -> delete i c !! j = c !! j)
  /\ remove k id (delete i c)
     = (Response 404 (JsonError (Text (notFound k))), delete i c)
  /\ snd (remove k id (snd (remove k id c))) = snd (remove k id c).
Proof.
  intros Hid Hd.
  assert (H1 : remove k id c = (Response 204 NoBody, delete i c)).
  { unfold remove, findByIdAndDelete. now rewrite Hid, Hd. }
  assert (H2 : remove k id (delete i c)
               = (Response 404 (JsonError (Text (notFound k))), delete i c)).
  { unfold remove, findByIdAndDelete. now rewrite Hid, lookup_delete_eq. }
  repeat split.
  - exact H1.
  - apply lookup_delete_eq.
  - intros j Hj. now apply lookup_delete_ne.
  - exact H2.
  - rewrite H1. simpl. now rewrite H2.
Qed.

Lemma remove_twice_witness :
  castObjectId "6547A1B2C3D4E5F6A7B8C9D0" = Some "6547a1b2c3d4e5f6a7b8c9d0"
  /\ someUsers !! "6547a1b2c3d4e5f6a7b8c9d0" = Some aUser
  /\ remove Users "6547A1B2C3D4E5F6A7B8C9D0" someUsers
     = (Response 204 NoBody, delete "6547a1b2c3d4e5f6a7b8c9d0" someUsers).
Proof.
  split; [reflexivity|]. split; [reflexivity|].
  apply (remove_twice Users "6547A1B2C3D4E5F6A7B8C9D0"
           "6547a1b2c3d4e5f6a7b8c9d0" aUser someUsers); reflexivity.
Defined.

(** ** Create *)




(** What [construct] leaves out: a path that the body lacks and that no
    path of the schema with a default names. *)
Lemma construct_absent `{Runtime} (ps : list path) (b : reqBody) (d : doc)
  (f : string) :
  b !! f = None ->
  Forall (fun p => pname p = f -> pdefault p = None) ps ->
  construct ps b = Ok d ->
  d !! f = None.
Proof.
  intros Hb. revert d. induction ps as [|p ps IH]; intros d Hdef; simpl.
  - intros [= <-]. apply lookup_empty.
  - inversion Hdef as [|? ? Hp Hps]; subst.
    destruct (construct ps b) as [d0|e] eqn:E; simpl; [|discriminate].
    specialize (IH d0 Hps eq_refl).
    destruct (decide (pname p = f)) as [Heq|Hne].
    + rewrite Heq, Hb, (Hp Heq). now intros [= <-].
    + destruct (b !! pname p) as [s|].
      * destruct (castValue p s) as [v|e]; simpl; [|discriminate].
        intros [= <-]. now rewrite lookup_insert_ne.
      * destruct (pdefault p); intros [= <-]; [|assumption].
        now rewrite lookup_insert_ne.
Qed.

Lemma save_unfold `{Runtime} (k : kind) (b : reqBody) (c : collection) :
  save k b c
  = match assignId b c with
    | Throw e => Throw e
    | Ok i =>
        match construct (schema k) b with
        | Throw _ => Throw ValidationError
        | Ok d =>
            if validate (schema k) d
            then match c !! i with
                 | Some _ => Throw DuplicateKey
                 | None => Ok (i, d, <[i := d]> c)
                 end
            else Throw ValidationError
        end
    end.
Proof.
  unfold save. destruct (assignId b c); [|reflexivity].
  cbn [mbind result_bind].
  destruct (construct (schema k) b); [|reflexivity].
  cbn [mbind result_bind]. now destruct (validate (schema k) a0).
Qed.

(** [profissionalSchema] marks its five paths as required: a body without
    one of them is answered with 400 and nothing is saved. *)
Lemma prof_saude_requires `{Runtime} (b : reqBody) (c : collection) (p : path) :
  p ∈ schema ProfSaude ->
  b !! pname p = None ->
  exists e, create ProfSaude b c = (Response 400 (JsonError (ErrMessage e)), c).
Proof.
  intros Hp Hb. unfold create. rewrite save_unfold.
  destruct (assignId b c) as [i|e]; [|eauto].
  destruct (construct (schema ProfSaude) b) as [d|e] eqn:Hd; [|eauto].
  assert (Habs : d !! pname p = None).
  { eapply construct_absent; [exact Hb| |exact Hd].
    repeat constructor. }
  replace (validate (schema ProfSaude) d) with false; [eauto|].
  symmetry. apply not_true_is_false. intros Hv.
  unfold validate in Hv. rewrite forallb_forall in Hv.
  specialize (Hv p). rewrite Habs in Hv.
  assert (Hreq : prequired p = true).
  { simpl in Hp. repeat (apply elem_of_cons in Hp as [->|Hp]; [reflexivity|]).
    now apply elem_of_nil in Hp. }
  rewrite Hreq in Hv. simpl in Hv.
  assert (Hin : In p (schema ProfSaude)) by now apply list_elem_of_In.
  specialize (Hv Hin). discriminate.
Qed.

(** C2. [userSchema] declares its paths without [required], although the
    swagger block of the file lists them all as required: a body without
    [email] is saved and answered with 201. *)
Theorem users_create_without_email `{Runtime} :
  "email" ∈ documentedRequired Users
  /\ ({[ "nome" := "Caio Hobold"; "user" := "caio.hobold";
         "pwd" := "password123"; "level" := "admin"; "status" := "on" ]}
        : reqBody) !! "email" = None
  /\ create Users
       {[ "nome" := "Caio Hobold"; "user" := "caio.hobold";
          "pwd" := "password123"; "level" := "admin"; "status" := "on" ]} ∅
     = (Response 201
          (Json (newObjectId ∅)
             {[ "nome" := VStr "Caio Hobold"; "user" := VStr "caio.hobold";
                "pwd" := VStr "password123"; "level" := VStr "admin";
                "status" := VStr "on" ]}),
        {[ newObjectId ∅ :=
             {[ "nome" := VStr "Caio Hobold"; "user" := VStr "caio.hobold";
                "pwd" := VStr "password123"; "level" := VStr "admin";
                "status" := VStr "on" ]} ]}).
Proof.
  split; [apply (bool_decide_unpack (_ ∈ _)); vm_compute; exact I|].
  split; [reflexivity|].
  unfold create. rewrite save_unfold.
  replace (assignId _ _) with (Ok (newObjectId ∅) : result string)
    by reflexivity.
  replace (construct _ _) with
    (Ok ({[ "nome" := VStr "Caio Hobold"; "user" := VStr "caio.hobold";
           "pwd" := VStr "password123"; "level" := VStr "admin";
           "status" := VStr "on" ]} : doc))
    by (vm_compute; reflexivity).
  replace (validate _ _) with true by (vm_compute; reflexivity).
  rewrite lookup_empty. reflexivity.
Qed.

(** ** Update *)

Lemma castPaths_absent `{Runtime} (ps : list path) (b : reqBody) (u : doc)
  (f : string) :
  b !! f = None -> castPaths ps b = Ok u -> u !! f = None.
Proof.
  intros Hb. revert u. induction ps as [|p ps IH]; intros u; simpl.
  - intros [= <-]. apply lookup_empty.
  - destruct (castPaths ps b) as [u0|e]; [|discriminate].
    cbn [mbind result_bind].
    destruct (b !! pname p) as [s|] eqn:Hs.
    + destruct (castValue p s) as [v|e]; [|discriminate].
      cbn [mbind result_bind]. intros [= <-].
      rewrite lookup_insert_ne; [now apply IH|congruence].
    + intros [= <-]. now apply IH.
Qed.

Lemma castPaths_supplied `{Runtime} (ps : list path) (b : reqBody) (u : doc)
  (p : path) (s : string) :
  NoDup (pname <$> ps) ->
  p ∈ ps ->
  b !! pname p = Some s ->
  castPaths ps b = Ok u ->
  exists v, castValue p s = Ok v /\ u !! pname p = Some v.
Proof.
  intros Hnd Hp Hs. revert u Hnd Hp.
  induction ps as [|q ps IH]; intros u Hnd Hp; simpl.
  - now apply elem_of_nil in Hp.
  - rewrite fmap_cons in Hnd. apply NoDup_cons in Hnd as [Hq Hnd].
    destruct (castPaths ps b) as [u0|e]; [|discriminate].
    cbn [mbind result_bind].
    apply elem_of_cons in Hp as [->|Hp].
    + rewrite Hs. destruct (castValue q s) as [v|e]; [|discriminate].
      cbn [mbind result_bind]. intros [= <-].
      exists v. split; [reflexivity|apply lookup_insert_eq].
    + destruct (IH u0 Hnd Hp eq_refl) as (v & Hv & Hu).
      assert (Hne : pname q <> pname p).
      { intros Heq. apply Hq. rewrite Heq. now apply list_elem_of_fmap_2. }
      destruct (b !! pname q) as [t|].
      * destruct (castValue q t) as [w|e]; [|discriminate].
        cbn [mbind result_bind]. intros [= <-].
        exists v. split; [assumption|]. now rewrite lookup_insert_ne.
      * intros [= <-]. eauto.
Qed.

Lemma castUpdate_paths `{Runtime} (ps : list path) (b : reqBody) (u : doc) :
  castUpdate ps b = Ok u -> hasOperator b = false /\ castPaths ps b = Ok u.
Proof.
  unfold castUpdate. destruct (hasOperator b); [discriminate|]. now split.
Qed.

Lemma castUpdate_absent `{Runtime} (ps : list path) (b : reqBody) (u : doc)
  (f : string) :
  b !! f = None -> castUpdate ps b = Ok u -> u !! f = None.
Proof.
  intros Hb [_ Hu]%castUpdate_paths. now apply (castPaths_absent ps b).
Qed.

Lemma castUpdate_supplied `{Runtime} (ps : list path) (b : reqBody) (u : doc)
  (p : path) (s : string) :
  NoDup (pname <$> ps) ->
  p ∈ ps ->
  b !! pname p = Some s ->
  castUpdate ps b = Ok u ->
  exists v, castValue p s = Ok v /\ u !! pname p = Some v.
Proof.
  intros Hnd Hp Hs [_ Hu]%castUpdate_paths.
  now apply (castPaths_supplied ps b).
Qed.

Lemma schema_NoDup (k : kind) : NoDup (pname <$> schema k).
Proof.
  destruct k; apply (bool_decide_unpack (NoDup _)); vm_compute; exact I.
Qed.

Lemma id_not_in_schema (k : kind) : "_id" ∉ pname <$> schema k.
Proof.
  destruct k; apply (bool_decide_unpack (_ ∉ _)); vm_compute; exact I.
Qed.

(** A schema of strings casts every body without operators. *)
Lemma castUpdate_strings `{Runtime} (ps : list path) (b : reqBody) :
  hasOperator b = false ->
  Forall (fun p => ptype p = TString) ps ->
  exists u, castUpdate ps b = Ok u.
Proof.
  intros Hop. unfold castUpdate. rewrite Hop.
  induction 1 as [|p ps Hp _ [u Hu]]; simpl; [eauto|].
  rewrite Hu. cbn [mbind result_bind].
  destruct (b !! pname p) as [s|]; [|eauto].
  unfold castValue. rewrite Hp. cbn [mbind result_bind]. eauto.
Qed.

(** A body with [$set] and a string is answered with 400, whether the
    identifier is in the collection or not, and nothing changes. *)
Example update_with_operator :
  @update utc Users "6547a1b2c3d4e5f6a7b8c9d0" {[ "$set" := "x" ]} someUsers
  = (Response 400 (JsonError (ErrMessage AtomicUpdate)), someUsers)
  /\ @update utc Users "6547a1b2c3d4e5f6a7b8c9d0" {[ "$set" := "x" ]} ∅
     = (Response 400 (JsonError (ErrMessage AtomicUpdate)), ∅).
Proof. split; reflexivity. Qed.

(** C6, as amended. [PUT /:id] on a document [r] of the collection, with
    a body that supplies paths of the schema only and whose values cast to
    the types of their paths, stores the document after the update and
    answers 200 with it as Mongoose hydrates it: the stored document has
    the cast of the body's value at every path the body supplies (for a
    String path the value itself) and the value of [r] at every other
    path; the answer has every path of the stored document with its value,
    and at a path the stored document lacks the default of the schema, if
    it declares one; the other documents stay. *)
Theorem update_merges `{Runtime} (k : kind) (id i : string) (b : reqBody)
  (c : collection) (r u : doc) :
  castObjectId id = Some i ->
  c !! i = Some r ->
  suppliesOnly k b ->
  castUpdate (schema k) b = Ok u ->
  update k id b c
  = (Response 200 (Json i (hydrate k (u ∪ r))), <[i := u ∪ r]> c)
  /\ (forall f, b !! f = None -> (u ∪ r) !! f = r !! f)
  /\ (forall p s, p ∈ schema k -> b !! pname p = Some s ->
        exists v, castValue p s = Ok v /\ (u ∪ r) !! pname p = Some v)
  /\ (forall p s, p ∈ schema k -> ptype p = TString ->
        b !! pname p = Some s -> (u ∪ r) !! pname p = Some (VStr s))
  /\ (forall f v, (u ∪ r) !! f = Some v -> hydrate k (u ∪ r) !! f = Some v)
  /\ (forall f, (u ∪ r) !! f = None ->
        hydrate k (u ∪ r) !! f = defaults (schema k) !! f)
  /\ (forall j, j <> i -> <[i := u ∪ r]> c !! j = c !! j).
Proof.
  intros Hid Hr Honly Hu.
  assert (Hsup : forall p s, p ∈ schema k -> b !! pname p = Some s ->
            exists v, castValue p s = Ok v /\ (u ∪ r) !! pname p = Some v).
  { intros p s Hp Hs.
    destruct (castUpdate_supplied _ _ _ _ _ (schema_NoDup k) Hp Hs Hu)
      as (v & Hv & Huv).
    exists v. split; [assumption|]. now apply lookup_union_Some_l. }
  split; [|split; [|split; [|split; [|split; [|split]]]]].
  - unfold update, findByIdAndUpdate. rewrite Hid, Hu.
    cbn [mbind result_bind].
    assert (Hnoid : b !! "_id" = None).
    { destruct (b !! "_id") as [s|] eqn:E; [|reflexivity].
      exfalso. apply (id_not_in_schema k). exact (Honly _ _ E). }
    unfold updateId. rewrite Hnoid. cbn [mbind result_bind].
    rewrite Hr. rewrite bool_decide_true by now left. reflexivity.
  - intros f Hf. rewrite lookup_union_r; [reflexivity|].
    now apply (castUpdate_absent (schema k) b).
  - exact Hsup.
  - intros p s Hp Ht Hs. destruct (Hsup p s Hp Hs) as (v & Hv & Huv).
    unfold castValue in Hv. rewrite Ht in Hv. now injection Hv as <-.
  - intros f v Hf. now rewrite hydrate_lookup, Hf.
  - intros f Hf. now rewrite hydrate_lookup, Hf.
  - intros j Hj. now apply lookup_insert_ne.
Qed.

Lemma update_merges_witness :
  castObjectId "6547a1b2c3d4e5f6a7b8c9d1" = Some "6547a1b2c3d4e5f6a7b8c9d1"
  /\ someTeachers !! "6547a1b2c3d4e5f6a7b8c9d1" = Some aTeacher
  /\ suppliesOnly Teachers {[ "status" := "off" ]}
  /\ @castUpdate utc (schema Teachers) {[ "status" := "off" ]}
     = Ok {[ "status" := VStr "off" ]}
  /\ @update utc Teachers "6547a1b2c3d4e5f6a7b8c9d1" {[ "status" := "off" ]}
       someTeachers
     = (Response 200
          (Json "6547a1b2c3d4e5f6a7b8c9d1"
             (hydrate Teachers ({[ "status" := VStr "off" ]} ∪ aTeacher))),
        <[ "6547a1b2c3d4e5f6a7b8c9d1" := {[ "status" := VStr "off" ]} ∪ aTeacher ]>
          someTeachers)
  /\ ({[ "status" := VStr "off" ]} ∪ aTeacher) !! "subject" = Some (VStr "Artes")
  /\ hydrate Teachers ({[ "status" := VStr "off" ]} ∪ aTeacher) !! "subject"
     = Some (VStr "Artes").
Proof.
  assert (Hs : suppliesOnly Teachers {[ "status" := "off" ]}).
  { apply (bool_decide_unpack (map_Forall _ _)). vm_compute. exact I. }
  split; [reflexivity|]. split; [reflexivity|]. split; [exact Hs|].
  split; [reflexivity|].
  destruct (@update_merges utc Teachers "6547a1b2c3d4e5f6a7b8c9d1"
              "6547a1b2c3d4e5f6a7b8c9d1" {[ "status" := "off" ]} someTeachers
              aTeacher {[ "status" := VStr "off" ]}
              eq_refl eq_refl Hs eq_refl) as (Hupd & Hkeep & _ & _ & Hans & _).
  split; [exact Hupd|].
  assert (Hsub : ({[ "status" := VStr "off" ]} ∪ aTeacher) !! "subject"
                 = Some (VStr "Artes")).
  { rewrite (Hkeep "subject"); reflexivity. }
  split; [exact Hsub|]. now apply Hans.
Defined.

(** A student stored without [status] is answered with the default of
    [studentSchema], which the update does not store. *)
Example update_student_without_status :
  @update utc Students "6547a1b2c3d4e5f6a7b8c9d3" {[ "age" := "7" ]}
    (named Students "Bingo Heeler")
  = (Response 200
       (Json "6547a1b2c3d4e5f6a7b8c9d3"
          {[ "name" := VStr "Bingo Heeler"; "age" := VStr "7";
             "status" := VStr "on" ]}),
     {[ "6547a1b2c3d4e5f6a7b8c9d3" :=
          {[ "name" := VStr "Bingo Heeler"; "age" := VStr "7" ]} ]}).
Proof. vm_compute. reflexivity. Qed.

(** C6, the claim as stated fails: a body that supplies the [date] path
    of an event with a string that does not cast to a date is answered
    with 400, and the event stays as it was. *)
Lemma update_unreadable_date :
  lateEvents !! "6547a1b2c3d4e5f6a7b8c9d2" = Some lateEvent
  /\ suppliesOnly Events {[ "date" := "not-a-date" ]}
  /\ @update utc Events "6547a1b2c3d4e5f6a7b8c9d2" {[ "date" := "not-a-date" ]}
       lateEvents
     = (Response 400 (JsonError (ErrMessage (CastError "date"))), lateEvents).
Proof.
  split; [reflexivity|]. split; [|reflexivity].
  apply (bool_decide_unpack (map_Forall _ _)). vm_compute. exact I.
Qed.

(** ** Search by day *)

Lemma search_unfold `{Runtime} (k : kind) (q : option string) (c : collection)
  (f : conditions) (test : doc -> bool) :
  searchConditions k q = Some f ->
  castFilter f = Ok test ->
  search k q c
  = match map_to_list (hydrate k <$> select test c) with
    | [] => (Response 404 (JsonError (Text (noneFound k))), c)
    | l => (Response 200 (JsonArray l), c)
    end.
Proof.
  intros Hf Ht. unfold search, find. rewrite Hf, Ht.
  cbn [mbind result_bind]. now destruct (map_to_list _).
Qed.

(** C1. [GET /events/search] compares with [$lt] against 23:59:59 of the
    day: an event of 2023-11-05 at 23:59:59 UTC, alone in the collection,
    is not found by [date=2023-11-05], and the answer is 404. *)
Theorem events_search_last_second `{Runtime} :
  JSDate.parseISO "2023-11-05T23:59:59Z" = Some 1699228799000
  /\ lateEvent !! "date" = Some (VDate 1699228799000)
  /\ searchConditions Events (Some "2023-11-05")
     = Some (DateRange "date" (Some 1699142400000) (Some 1699228799000))
  /\ search Events (Some "2023-11-05") lateEvents
     = (Response 404 (JsonError (Text "Nenhum evento encontrado")), lateEvents).
Proof.
  repeat split; reflexivity.
Qed.

(** [GET /appointments/search] on a server in UTC finds an appointment at
    that instant. *)
Lemma appointments_search_last_second :
  @search utc Appointments (Some "2023-11-05") lateAppointments
  = (Response 200 (JsonArray [("6547a1b2c3d4e5f6a7b8c9d4", lateAppointment)]),
     lateAppointments).
Proof. vm_compute. reflexivity.
Qed.

(** C3. [GET /events/search] has no check of the format: [date=2023-11]
    is not a [YYYY-MM-DD] date, yet [Date] reads [2023-11T00:00:00Z], the
    query runs on the first of November, and the status is never 400;
    [GET /appointments/search] answers the same parameter with 400. *)
Theorem events_search_year_month `{Runtime} (c : collection) :
  Moment.isValid "2023-11" = false
  /\ searchConditions Events (Some "2023-11")
     = Some (DateRange "date" (Some 1698796800000) (Some 1698883199000))
  /\ status (search Events (Some "2023-11") c).1 <> 400
  /\ search Appointments (Some "2023-11") c
     = (Response 400 (JsonError (Text (missingParam Appointments))), c).
Proof.
  assert (Hc : searchConditions Events (Some "2023-11")
               = Some (DateRange "date" (Some 1698796800000) (Some 1698883199000)))
    by reflexivity.
  repeat split; try reflexivity.
  rewrite (search_unfold _ _ _ _ _ Hc eq_refl).
  destruct (map_to_list _); simpl; discriminate.
Qed.

(** A date that the strict parse rejects never reaches the store in
    [GET /appointments/search]. *)
Lemma appointments_search_rejects `{Runtime} (v : string) (c : collection) :
  Moment.isValid v = false ->
  search Appointments (Some v) c
  = (Response 400 (JsonError (Text (missingParam Appointments))), c).
Proof.
  unfold Moment.isValid, search, searchConditions. intros Hv.
  destruct (falsy (Some v)); [reflexivity|].
  destruct (Moment.strict v); [discriminate|reflexivity].
Qed.

(** ** The statuses of search *)

Lemma select_elem_of (test : doc -> bool) (c : collection) (i : string) (d : doc) :
  (i, d) ∈ map_to_list (select test c) <-> c !! i = Some d /\ test d = true.
Proof.
  rewrite elem_of_map_to_list. unfold select.
  rewrite map_lookup_filter_Some. simpl. now rewrite Is_true_true.
Qed.

Lemma select_nil (test : doc -> bool) (c : collection) :
  map_to_list (select test c) = []
  <-> (forall i d, c !! i = Some d -> test d = false).
Proof.
  split.
  - intros Hnil i d Hd. apply not_true_is_false. intros Ht.
    assert (Hin : (i, d) ∈ map_to_list (select test c))
      by now apply select_elem_of.
    rewrite Hnil in Hin. now apply elem_of_nil in Hin.
  - intros Hnone. destruct (map_to_list (select test c)) as [|[i d] l] eqn:E;
      [reflexivity|].
    assert (Hin : (i, d) ∈ map_to_list (select test c))
      by (rewrite E; apply elem_of_cons; now left).
    apply select_elem_of in Hin as [Hd Ht].
    rewrite (Hnone i d Hd) in Ht. discriminate.
Qed.

Lemma select_lookup (test : doc -> bool) (c : collection) (i : string) (d : doc) :
  select test c !! i = Some d <-> c !! i = Some d /\ test d = true.
Proof.
  unfold select. rewrite map_lookup_filter_Some. simpl. now rewrite Is_true_true.
Qed.

Lemma hydrated_elem_of (k : kind) (test : doc -> bool) (c : collection)
  (i : string) (d' : doc) :
  (i, d') ∈ map_to_list (hydrate k <$> select test c)
  <-> exists d, c !! i = Some d /\ test d = true /\ d' = hydrate k d.
Proof.
  rewrite elem_of_map_to_list, lookup_fmap, fmap_Some. split.
  - intros (d & [Hd Ht]%select_lookup & ->). eauto.
  - intros (d & Hd & Ht & ->). exists d. split; [|reflexivity].
    now apply select_lookup.
Qed.

Lemma hydrated_nil (k : kind) (test : doc -> bool) (c : collection) :
  map_to_list (hydrate k <$> select test c) = []
  <-> (forall i d, c !! i = Some d -> test d = false).
Proof.
  split.
  - intros Hnil i d Hd. apply not_true_is_false. intros Ht.
    assert (Hin : (i, hydrate k d) ∈ map_to_list (hydrate k <$> select test c))
      by (apply hydrated_elem_of; eauto).
    rewrite Hnil in Hin. now apply elem_of_nil in Hin.
  - intros Hnone.
    destruct (map_to_list (hydrate k <$> select test c)) as [|[i d'] l] eqn:E;
      [reflexivity|].
    assert (Hin : (i, d') ∈ map_to_list (hydrate k <$> select test c))
      by (rewrite E; apply elem_of_cons; now left).
    apply hydrated_elem_of in Hin as (d & Hd & Ht & _).
    rewrite (Hnone i d Hd) in Ht. discriminate.
Qed.

(** In the route files whose schema has no default the answer is the
    stored documents. *)
Lemma hydrate_fmap_id (k : kind) (c : collection) :
  k <> Students -> hydrate k <$> c = c.
Proof.
  intros Hk. rewrite <- (map_fmap_id c) at 2.
  apply map_fmap_ext. intros i d _. now apply hydrate_no_default.
Qed.

(** The answer of [/search] once the conditions are built and cast. *)
Lemma search_shows `{Runtime} (k : kind) (q : option string) (c : collection)
  (f : conditions) (test : doc -> bool) (P : doc -> Prop) :
  searchConditions k q = Some f ->
  castFilter f = Ok test ->
  (forall i d, c !! i = Some d -> test d = true <-> P d) ->
  shows k (search k q c) c P.
Proof.
  intros Hf Ht HP. rewrite (search_unfold k q c f test Hf Ht). unfold shows.
  destruct (map_to_list (hydrate k <$> select test c)) as [|x l] eqn:El; cbn.
  - split; [reflexivity|]. left. split; [reflexivity|].
    intros i d Hd Hp. apply (HP i d Hd) in Hp.
    pose proof (proj1 (hydrated_nil k test c) El i d Hd) as Hfalse. congruence.
  - split; [reflexivity|]. right. exists (x :: l).
    split; [reflexivity|]. split; [discriminate|].
    split; [rewrite <- El; apply NoDup_map_to_list|].
    intros i d'. rewrite <- El, hydrated_elem_of.
    split; intros (d & Hd & Hp & ->); exists d;
      (split; [assumption|]); (split; [|reflexivity]); now apply (HP i d Hd).
Qed.

(** What refuses a parameter, route file by route file. *)
Lemma accepted_None `{Runtime} (k : kind) (q : option string) :
  accepted k q = None <->
  match q with
  | None => True
  | Some v =>
      v = "" \/
      match k with
      | Events =>
          JSDate.parse (v ++ "T00:00:00Z") = None
          \/ JSDate.parse (v ++ "T23:59:59Z") = None
      | Appointments => Moment.strict v = None
      | _ => Regex.compile v = None
      end
  end.
Proof.
  unfold accepted, searchConditions, falsy.
  destruct q as [v|]; [|tauto].
  destruct (String.eqb_spec v "") as [->|Hv]; [cbn; tauto|].
  destruct k; cbn [mbind option_bind castFilter];
    repeat match goal with
           | |- context [Regex.compile v] => destruct (Regex.compile v)
           | |- context [JSDate.parse ?s] => destruct (JSDate.parse s)
           | |- context [Moment.strict v] => destruct (Moment.strict v)
           end;
    cbn;
    (split;
     [ try discriminate; intros _; auto
     | intros Hx; decompose [or] Hx; congruence ]).
Qed.

(** ** Search by name *)

Lemma isPlain_token (c : ascii) :
  Regex.isPlain c = true ->
  Ascii.eqb c "\" = false /\ Ascii.eqb c "." = false /\ Regex.quantOf c = None.
Proof.
  destruct c as [[] [] [] [] [] [] [] []]; vm_compute; intros Hc;
    first [discriminate Hc | repeat split].
Qed.

Lemma tokens_plain (l : list ascii) :
  forallb Regex.isPlain l = true ->
  Regex.tokens l = Some (map (fun c => Regex.TAtom (Regex.Lit c)) l).
Proof.
  induction l as [|c l IH]; simpl; [reflexivity|].
  intros [Hc Hl]%andb_true_iff.
  destruct (isPlain_token c Hc) as (-> & -> & ->).
  rewrite Hc, (IH Hl). reflexivity.
Qed.

Lemma items_atoms (l : list ascii) :
  Regex.items (map (fun c => Regex.TAtom (Regex.Lit c)) l)
  = Some (map (fun c => (Regex.Lit c, Regex.One)) l).
Proof.
  induction l as [|c l IH]; [reflexivity|].
  cbn [map Regex.items].
  destruct l as [|c' l]; [reflexivity|].
  cbn [map] in *. rewrite IH. reflexivity.
Qed.

Lemma parse_plain (v : string) :
  plain v = true ->
  Regex.parse v
  = Some (map (fun c => (Regex.Lit c, Regex.One)) (list_ascii_of_string v)).
Proof.
  intros Hv. unfold Regex.parse. rewrite (tokens_plain _ Hv).
  cbn [mbind option_bind]. apply items_atoms.
Qed.

Lemma literal_atoms (l : list ascii) :
  Regex.literal (map (fun c => (Regex.Lit c, Regex.One)) l) = true.
Proof. induction l; simpl; auto. Qed.

Lemma matchHere_literal (v m s : list ascii) :
  map toLower m = map toLower v ->
  Regex.matchHere (map (fun c => (Regex.Lit c, Regex.One)) v) (m ++ s) = true.
Proof.
  revert m. induction v as [|c v IH]; intros m Hm; [reflexivity|].
  destruct m as [|x m]; [discriminate|].
  injection Hm as Hx Hm.
  cbn [map Regex.matchHere app Regex.atomOk].
  rewrite Hx, Ascii.eqb_refl. simpl. now apply IH.
Qed.

Lemma search_skip (its : list (Regex.atom * Regex.quant)) (p t : list ascii) :
  Regex.matchHere its t = true -> Regex.search its (p ++ t) = true.
Proof.
  intros Ht. induction p as [|x p IH]; simpl.
  - destruct t; simpl; rewrite Ht; reflexivity.
  - rewrite IH. apply orb_true_r.
Qed.

(** A plain value compiles, and its pattern finds every name that holds
    the value up to case. *)
Lemma compile_plain `{Runtime} (v n : string) :
  plain v = true ->
  occursCI v n ->
  exists re, Regex.compile v = Some re /\ re n = true.
Proof.
  intros Hv (p & m & s & Hn & Hm).
  unfold Regex.compile. rewrite (parse_plain v Hv).
  eexists. split; [reflexivity|]. cbv beta.
  assert (Hs : Regex.search
                 (map (fun c => (Regex.Lit c, Regex.One)) (list_ascii_of_string v))
                 (list_ascii_of_string n) = true).
  { rewrite Hn. apply search_skip. now apply matchHere_literal. }
  rewrite Hs, literal_atoms. simpl. now destruct (Regex.printable n).
Qed.

Lemma name_conditions `{Runtime} (k : kind) (v : string) :
  k ∈ nameKinds -> v <> "" ->
  searchConditions k (Some v) = Some (RegexI (searchParam k) v).
Proof.
  intros Hk Hv. unfold searchConditions, falsy.
  destruct (String.eqb_spec v ""); [contradiction|].
  unfold nameKinds in Hk.
  repeat (apply elem_of_cons in Hk as [->|Hk]; [reflexivity|]).
  now apply elem_of_nil in Hk.
Qed.

(** In the four route files that search by name, for a value that is not
    empty and is made of plain characters, every document of the
    collection whose name holds the value up to the case of letters is in
    the 200 answer of [/search], as Mongoose hydrates it. *)
Lemma name_search_caseless `{Runtime} (k : kind) (v : string)
  (c : collection) (i : string) (d : doc) (n : string) :
  k ∈ nameKinds ->
  v <> "" ->
  plain v = true ->
  c !! i = Some d ->
  d !! searchParam k = Some (VStr n) ->
  occursCI v n ->
  exists l,
    search k (Some v) c = (Response 200 (JsonArray l), c)
    /\ (i, hydrate k d) ∈ l.
Proof.
  intros Hk Hv Hplain Hd Hn Hocc.
  destruct (compile_plain v n Hplain Hocc) as (re & Hre & Hmatch).
  pose proof (name_conditions k v Hk Hv) as Hf.
  set (test := fun d : doc =>
                 match d !! searchParam k with Some (VStr s) => re s | _ => false end).
  assert (Ht : castFilter (RegexI (searchParam k) v) = Ok test).
  { unfold castFilter. now rewrite Hre. }
  assert (Hin : (i, hydrate k d) ∈ map_to_list (hydrate k <$> select test c)).
  { apply hydrated_elem_of. exists d. split; [assumption|].
    split; [|reflexivity]. unfold test. now rewrite Hn. }
  rewrite (search_unfold k (Some v) c _ test Hf Ht).
  destruct (map_to_list (hydrate k <$> select test c)) as [|x l] eqn:El.
  - now apply elem_of_nil in Hin.
  - eauto.
Qed.

(** A student named Bingo Heeler, stored without [status], is found by
    the value [bingo] and answered with the default status. *)
Example name_search_bingo :
  @search utc Students (Some "bingo") (named Students "Bingo Heeler")
  = (Response 200
       (JsonArray [("6547a1b2c3d4e5f6a7b8c9d3",
                    {[ "name" := VStr "Bingo Heeler"; "status" := VStr "on" ]})]),
     named Students "Bingo Heeler").
Proof. vm_compute. reflexivity. Qed.

(** C10. The swagger block of each of the four routes documents the
    parameter of [/search] as the name or a part of the name.  The value
    goes into [$regex] as it is, so a name with a character that a pattern
    reads as an operator is not found by itself: the value [a+b] is one or
    more [a] and then [b], and with one document named [a+b] in the
    collection [/search] answers 404 in each of the four route files. *)
Theorem name_search_plus `{Runtime} :
  occursCI "a+b" "a+b"
  /\ Forall (fun k =>
        named k "a+b" !! "6547a1b2c3d4e5f6a7b8c9d3"
        = Some {[ searchParam k := VStr "a+b" ]}
        /\ search k (Some "a+b") (named k "a+b")
           = (Response 404 (JsonError (Text (noneFound k))), named k "a+b"))
       nameKinds.
Proof.
  split.
  - exists [], (list_ascii_of_string "a+b"), []. split; reflexivity.
  - unfold nameKinds. repeat constructor.
Qed.

Lemma occursCI_chars (v n : string) (x : ascii) :
  occursCI v n ->
  x ∈ list_ascii_of_string v ->
  toLower x ∈ map toLower (list_ascii_of_string n).
Proof.
  intros (p & m & s & Hn & Hm) Hx.
  rewrite Hn, !map_app, Hm.
  apply elem_of_app. right. apply elem_of_app. left.
  now apply (list_elem_of_fmap_2 toLower).
Qed.

Lemma dot_not_in_Bingo (v : string) :
  "."%char ∈ list_ascii_of_string v -> ~ occursCI v "Bingo Heeler".
Proof.
  intros Hdot Hocc.
  pose proof (occursCI_chars v "Bingo Heeler" "." Hocc Hdot) as Hin.
  revert Hin. apply (bool_decide_unpack (_ ∉ _)). vm_compute. exact I.
Qed.

(** C5. In the four route files that search by name the value goes into
    [$regex] as it is.  The values [.] and [g.*h] are not in the name
    [Bingo Heeler], in any case of letters, and [/search] answers both
    with the document of that name, as Mongoose hydrates it: for a student
    stored without [status], with the default of the schema. *)
Theorem name_search_reads_operators `{Runtime} :
  Forall (fun k =>
    (forall (a : ascii) (v : string),
        searchConditions k (Some (String a v))
        = Some (RegexI (searchParam k) (String a v)))
    /\ search k (Some ".") (named k "Bingo Heeler")
       = (Response 200
            (JsonArray [("6547a1b2c3d4e5f6a7b8c9d3",
                         hydrate k {[ searchParam k := VStr "Bingo Heeler" ]})]),
          named k "Bingo Heeler")
    /\ search k (Some "g.*h") (named k "Bingo Heeler")
       = (Response 200
            (JsonArray [("6547a1b2c3d4e5f6a7b8c9d3",
                         hydrate k {[ searchParam k := VStr "Bingo Heeler" ]})]),
          named k "Bingo Heeler")) nameKinds
  /\ hydrate Students {[ "name" := VStr "Bingo Heeler" ]}
     = {[ "name" := VStr "Bingo Heeler"; "status" := VStr "on" ]}
  /\ (forall k, k <> Students ->
        hydrate k {[ searchParam k := VStr "Bingo Heeler" ]}
        = {[ searchParam k := VStr "Bingo Heeler" ]})
  /\ ~ occursCI "." "Bingo Heeler"
  /\ ~ occursCI "g.*h" "Bingo Heeler".
Proof.
  split; [|split; [|split]].
  - unfold nameKinds. repeat constructor.
  - vm_compute. reflexivity.
  - intros k Hk. now apply hydrate_no_default.
  - split; apply dot_not_in_Bingo;
      apply (bool_decide_unpack (_ ∈ _)); vm_compute; exact I.
Qed.

(** ** The days that the two date searches cover *)

Lemma isDigit_not_T (c : ascii) : isDigit c = true -> Ascii.eqb c "T" = false.
Proof.
  destruct c as [[] [] [] [] [] [] [] []]; vm_compute; congruence.
Qed.

Lemma isDash_not_T (c : ascii) : JSDate.isDash c = true -> Ascii.eqb c "T" = false.
Proof.
  unfold JSDate.isDash. intros ->%Ascii.eqb_eq. reflexivity.
Qed.

Lemma append_String (a : ascii) (s t : string) :
  String a s ++ t = String a (s ++ t).
Proof. reflexivity. Qed.

Lemma append_empty (t : string) : "" ++ t = t.
Proof. reflexivity. Qed.

Lemma strict_chars (v : string) (y m d : Z) :
  Moment.strict v = Some (y, m, d) ->
  exists y1 y2 y3 y4 s1 m1 m2 s2 d1 d2,
    v = string_of_list_ascii [y1; y2; y3; y4; s1; m1; m2; s2; d1; d2]
    /\ forallb isDigit [y1; y2; y3; y4; m1; m2; d1; d2] = true
    /\ JSDate.isDash s1 = true /\ JSDate.isDash s2 = true
    /\ JSDate.validDay y m d = true
    /\ y = JSDate.num4 y1 y2 y3 y4 /\ m = JSDate.num2 m1 m2
    /\ d = JSDate.num2 d1 d2.
Proof.
  unfold Moment.strict. intros Hs.
  rewrite <- (string_of_list_ascii_of_string v).
  destruct (list_ascii_of_string v)
    as [|y1 [|y2 [|y3 [|y4 [|s1 [|m1 [|m2 [|s2 [|d1 [|d2 [|? ?]]]]]]]]]]];
    try discriminate.
  destruct (forallb isDigit _ && _ && _ && _) eqn:E; [|discriminate].
  injection Hs as <- <- <-.
  apply andb_true_iff in E as [E Hv].
  apply andb_true_iff in E as [E H2].
  apply andb_true_iff in E as [Hd H1].
  exists y1, y2, y3, y4, s1, m1, m2, s2, d1, d2.
  repeat split; assumption.
Qed.

(** [GET /events/search] with a date that the strict parse reads covers
    the day from 00:00:00.000 UTC up to, and without, 23:59:59.000 UTC. *)
Lemma events_search_window `{Runtime} (v : string) (y m d : Z) :
  Moment.strict v = Some (y, m, d) ->
  searchConditions Events (Some v)
  = Some (DateRange "date"
            (Some (JSDate.daysFromCivil y m d * JSDate.msPerDay))
            (Some (JSDate.daysFromCivil y m d * JSDate.msPerDay + 86399000))).
Proof.
  intros Hs.
  destruct (strict_chars v y m d Hs)
    as (y1 & y2 & y3 & y4 & s1 & m1 & m2 & s2 & d1 & d2
        & -> & Hd & H1 & H2 & Hv & -> & -> & ->).
  pose proof Hd as Hd'. simpl in Hd'.
  repeat (apply andb_true_iff in Hd' as [?%isDigit_not_T Hd']).
  apply isDash_not_T in H1 as H1', H2 as H2'.
  unfold searchConditions, falsy, JSDate.parse, JSDate.parseISO.
  cbn [string_of_list_ascii String.eqb].
  rewrite !append_String, !append_empty.
  cbn [list_ascii_of_string JSDate.splitT].
  repeat match goal with E : Ascii.eqb _ "T" = false |- _ => rewrite E; clear E end.
  cbn [Ascii.eqb Bool.eqb JSDate.dateForm].
  rewrite Hd, H1, H2. cbn [andb]. rewrite Hv.
  set (t0 := JSDate.timeFormZ _). vm_compute in t0. subst t0.
  set (t1 := JSDate.timeFormZ _). vm_compute in t1. subst t1.
  cbv beta iota. now rewrite Z.add_0_r.
Qed.

(** [GET /appointments/search] covers the day of the server's zone, from
    its midnight up to, and without, the last millisecond before the next
    midnight. *)
Lemma appointments_search_window `{Runtime} (v : string) (y m d : Z) :
  Moment.strict v = Some (y, m, d) ->
  searchConditions Appointments (Some v)
  = Some (DateRange "date"
            (Some (localStartOfDay (JSDate.daysFromCivil y m d)))
            (Some (localStartOfDay (JSDate.daysFromCivil y m d + 1) - 1))).
Proof.
  intros Hs. unfold searchConditions, falsy.
  destruct (String.eqb_spec v "") as [->|_]; [discriminate|].
  now rewrite Hs.
Qed.

(** * Further properties of the handlers *)

(** ** List *)

Lemma select_all (c : collection) : select (fun _ => true) c = c.
Proof. unfold select. apply map_filter_id. intros; exact I. Qed.

(** X1. [GET /] answers 200 with every document of the collection as
    Mongoose hydrates it, each once, and nothing else: the stored
    documents themselves in the route files whose schema has no default;
    on an empty collection the body is the empty array.  The collection
    stays. *)
Theorem getAll_lists_all `{Runtime} (k : kind) (c : collection) :
  getAll k c = (Response 200 (JsonArray (map_to_list (hydrate k <$> c))), c)
  /\ (forall i d',
        (i, d') ∈ map_to_list (hydrate k <$> c)
        <-> exists d, c !! i = Some d /\ d' = hydrate k d)
  /\ NoDup (map_to_list (hydrate k <$> c))
  /\ length (map_to_list (hydrate k <$> c)) = size c
  /\ (k <> Students -> map_to_list (hydrate k <$> c) = map_to_list c)
  /\ getAll k ∅ = (Response 200 (JsonArray []), ∅).
Proof.
  assert (Hall : forall c',
            getAll k c'
            = (Response 200 (JsonArray (map_to_list (hydrate k <$> c'))), c')).
  { intros c'. unfold getAll, find. cbn [castFilter mbind result_bind].
    now rewrite select_all. }
  split; [apply Hall|].
  split.
  { intros i d'. rewrite elem_of_map_to_list, lookup_fmap, fmap_Some.
    split; intros (d & Hd & ->); eauto. }
  split; [apply NoDup_map_to_list|].
  split; [now rewrite length_map_to_list, map_size_fmap|].
  split; [intros Hk; now rewrite hydrate_fmap_id|].
  rewrite Hall. now rewrite fmap_empty, map_to_list_empty.
Qed.

(** A student stored without [status] is listed with the default. *)
Example getAll_student_without_status :
  @getAll utc Students (named Students "Bingo Heeler")
  = (Response 200
       (JsonArray [("6547a1b2c3d4e5f6a7b8c9d3",
                    {[ "name" := VStr "Bingo Heeler"; "status" := VStr "on" ]})]),
     named Students "Bingo Heeler").
Proof. vm_compute. reflexivity. Qed.

(** ** What an answer tells about the request *)

Lemma update_200 `{Runtime} (k : kind) (id : string) (b : reqBody)
  (c c' : collection) (i : string) (d' : doc) :
  update k id b c = (Response 200 (Json i d'), c') ->
  castObjectId id = Some i
  /\ exists u r,
       castUpdate (schema k) b = Ok u
       /\ (updateId b = Ok None \/ updateId b = Ok (Some i))
       /\ c !! i = Some r
       /\ d' = hydrate k (u ∪ r)
       /\ c' = <[i := u ∪ r]> c.
Proof.
  unfold update, findByIdAndUpdate.
  destruct (castObjectId id) as [i0|]; [|discriminate].
  destruct (castUpdate (schema k) b) as [u|e]; [|discriminate].
  cbn [mbind result_bind].
  destruct (updateId b) as [j|e]; [|discriminate].
  cbn [mbind result_bind].
  destruct (c !! i0) as [r|] eqn:Hr; [|discriminate].
  case_bool_decide as Hj; [|discriminate].
  intros [= <- <- <-]. split; [reflexivity|].
  exists u, r. repeat split; try assumption.
  destruct Hj as [->| ->]; auto.
Qed.

Lemma remove_204 (k : kind) (id : string) (c c' : collection) (p : payload) :
  remove k id c = (Response 204 p, c') ->
  exists i d, castObjectId id = Some i /\ c !! i = Some d /\ c' = delete i c.
Proof.
  unfold remove, findByIdAndDelete.
  destruct (castObjectId id) as [i|]; [|discriminate].
  destruct (c !! i) as [d|] eqn:Hd; [|discriminate].
  intros [= <- <-]. eauto.
Qed.

Lemma create_201 `{Runtime} (k : kind) (b : reqBody) (c c' : collection)
  (p : payload) :
  create k b c = (Response 201 p, c') ->
  exists i d,
    p = Json i d
    /\ assignId b c = Ok i
    /\ construct (schema k) b = Ok d
    /\ validate (schema k) d = true
    /\ c !! i = None
    /\ c' = <[i := d]> c.
Proof.
  unfold create. rewrite save_unfold.
  destruct (assignId b c) as [i|e]; [|discriminate].
  destruct (construct (schema k) b) as [d|e]; [|discriminate].
  destruct (validate (schema k) d) eqn:Hv; [|discriminate].
  destruct (c !! i) eqn:Hi; [discriminate|].
  intros [= <- <-]. exists i, d. repeat split; assumption.
Qed.

(** ** Update *)

(** X2. After [PUT /:id] has answered 200, [GET /:id] with the same
    identifier answers 200 with the same body, the document after the
    update. *)
Theorem update_then_getById `{Runtime} (k : kind) (id : string) (b : reqBody)
  (c c' : collection) (r : response) :
  update k id b c = (r, c') ->
  status r = 200 ->
  getById k id c' = (r, c').
Proof.
  intros Hu Hs.
  unfold update in Hu.
  destruct (findByIdAndUpdate k id b c) as [[[[i d']|] c0]|e] eqn:Hf;
    injection Hu as <- <-; try discriminate Hs.
  assert (Hu' : update k id b c = (Response 200 (Json i d'), c0)).
  { unfold update. now rewrite Hf. }
  destruct (update_200 _ _ _ _ _ _ _ Hu') as (Hid & u & r0 & _ & _ & _ & -> & ->).
  unfold getById, findById. rewrite Hid.
  now rewrite lookup_insert_eq.
Qed.

Lemma update_then_getById_witness :
  @update utc Teachers "6547a1b2c3d4e5f6a7b8c9d1" {[ "status" := "off" ]}
    someTeachers
  = (Response 200
       (Json "6547a1b2c3d4e5f6a7b8c9d1" ({[ "status" := VStr "off" ]} ∪ aTeacher)),
     <[ "6547a1b2c3d4e5f6a7b8c9d1" := {[ "status" := VStr "off" ]} ∪ aTeacher ]>
       someTeachers)
  /\ getById Teachers "6547a1b2c3d4e5f6a7b8c9d1"
       (<[ "6547a1b2c3d4e5f6a7b8c9d1" := {[ "status" := VStr "off" ]} ∪ aTeacher ]>
          someTeachers)
     = (Response 200
          (Json "6547a1b2c3d4e5f6a7b8c9d1" ({[ "status" := VStr "off" ]} ∪ aTeacher)),
        <[ "6547a1b2c3d4e5f6a7b8c9d1" := {[ "status" := VStr "off" ]} ∪ aTeacher ]>
          someTeachers).
Proof.
  split; [reflexivity|].
  apply (@update_then_getById utc Teachers "6547a1b2c3d4e5f6a7b8c9d1"
           {[ "status" := "off" ]} someTeachers); reflexivity.
Defined.

(** X3. [PUT /:id] is idempotent: the same request sent again after a 200
    gets the same answer and leaves the collection as the first one left
    it. *)
Theorem update_twice `{Runtime} (k : kind) (id : string) (b : reqBody)
  (c c' : collection) (r : response) :
  update k id b c = (r, c') ->
  status r = 200 ->
  update k id b c' = (r, c').
Proof.
  intros Hu Hs.
  unfold update in Hu.
  destruct (findByIdAndUpdate k id b c) as [[[[i d']|] c0]|e] eqn:Hf;
    injection Hu as <- <-; try discriminate Hs.
  assert (Hu' : update k id b c = (Response 200 (Json i d'), c0)).
  { unfold update. now rewrite Hf. }
  destruct (update_200 _ _ _ _ _ _ _ Hu')
    as (Hid & u & r0 & Hcu & Hj & _ & -> & ->).
  unfold update, findByIdAndUpdate. rewrite Hid, Hcu.
  cbn [mbind result_bind].
  assert (Hdec : forall j, updateId b = Ok j -> j = None \/ j = Some i).
  { intros j Hb. rewrite Hb in Hj. destruct Hj as [[= ->]|[= ->]]; auto. }
  destruct (updateId b) as [j|e]; [|destruct Hj; discriminate].
  cbn [mbind result_bind].
  rewrite lookup_insert_eq.
  rewrite bool_decide_true by now apply Hdec.
  rewrite (assoc_L (∪)), (idemp_L (∪) u).
  now rewrite insert_insert_eq.
Qed.

Lemma update_twice_witness :
  @update utc Teachers "6547a1b2c3d4e5f6a7b8c9d1" {[ "status" := "off" ]}
    someTeachers
  = (Response 200
       (Json "6547a1b2c3d4e5f6a7b8c9d1" ({[ "status" := VStr "off" ]} ∪ aTeacher)),
     <[ "6547a1b2c3d4e5f6a7b8c9d1" := {[ "status" := VStr "off" ]} ∪ aTeacher ]>
       someTeachers)
  /\ @update utc Teachers "6547a1b2c3d4e5f6a7b8c9d1" {[ "status" := "off" ]}
       (<[ "6547a1b2c3d4e5f6a7b8c9d1" := {[ "status" := VStr "off" ]} ∪ aTeacher ]>
          someTeachers)
     = (Response 200
          (Json "6547a1b2c3d4e5f6a7b8c9d1" ({[ "status" := VStr "off" ]} ∪ aTeacher)),
        <[ "6547a1b2c3d4e5f6a7b8c9d1" := {[ "status" := VStr "off" ]} ∪ aTeacher ]>
          someTeachers).
Proof.
  split; [reflexivity|].
  apply (@update_twice utc Teachers "6547a1b2c3d4e5f6a7b8c9d1"
           {[ "status" := "off" ]} someTeachers); reflexivity.
Defined.

(** X4. [PUT /:id] neither adds nor removes a document, whatever the
    request: the identifiers of the collection stay, a document under
    another identifier than the one of the request stays as it is, and an
    answer other than 200 leaves the whole collection as it was. *)
Theorem update_frame `{Runtime} (k : kind) (id : string) (b : reqBody)
  (c : collection) :
  dom (update k id b c).2 = dom c
  /\ (forall j, castObjectId id <> Some j -> (update k id b c).2 !! j = c !! j)
  /\ (status (update k id b c).1 <> 200 -> (update k id b c).2 = c)
  /\ (status (update k id b c).1 = 200
      \/ status (update k id b c).1 = 404
      \/ status (update k id b c).1 = 400).
Proof.
  unfold update, findByIdAndUpdate.
  destruct (castObjectId id) as [i|] eqn:Hid; [|cbn; auto 6].
  destruct (castUpdate (schema k) b) as [u|e]; [|cbn; auto 6].
  cbn [mbind result_bind].
  destruct (updateId b) as [j0|e]; [|cbn; auto 6].
  cbn [mbind result_bind].
  destruct (c !! i) as [r|] eqn:Hr; [|cbn; auto 6].
  case_bool_decide; [|cbn; auto 6].
  cbn. repeat split.
  - apply dom_insert_lookup_L. now rewrite Hr.
  - intros j Hj. apply lookup_insert_ne. congruence.
  - intros Hs. now contradiction Hs.
  - auto.
Qed.

(** ** Delete *)

(** X5. [DELETE /:id] removes at most the document of its identifier,
    whatever the request: what the collection holds afterwards it held
    before, a document under another identifier stays as it is, and an
    answer other than 204 leaves the whole collection as it was. *)
Theorem remove_frame (k : kind) (id : string) (c : collection) :
  (remove k id c).2 ⊆ c
  /\ (forall j, castObjectId id <> Some j -> (remove k id c).2 !! j = c !! j)
  /\ (status (remove k id c).1 <> 204 -> (remove k id c).2 = c)
  /\ (status (remove k id c).1 = 204
      \/ status (remove k id c).1 = 404
      \/ status (remove k id c).1 = 400).
Proof.
  unfold remove, findByIdAndDelete.
  destruct (castObjectId id) as [i|] eqn:Hid; [|cbn; auto 6].
  destruct (c !! i) as [d|] eqn:Hd; [|cbn; auto 6].
  cbn. repeat split.
  - apply delete_subseteq.
  - intros j Hj. apply lookup_delete_ne. congruence.
  - intros Hs. now contradiction Hs.
  - auto.
Qed.

(** X6. After [DELETE /:id] has answered 204, [GET /:id] and [PUT /:id]
    with the same identifier answer 404 when the body of the update casts,
    and the collection stays without the document. *)
Theorem remove_then_not_found `{Runtime} (k : kind) (id : string)
  (b : reqBody) (c c' : collection) (r : response) (u : doc) :
  remove k id c = (r, c') ->
  status r = 204 ->
  castUpdate (schema k) b = Ok u ->
  b !! "_id" = None ->
  getById k id c' = (Response 404 (JsonError (Text (notFound k))), c')
  /\ update k id b c' = (Response 404 (JsonError (Text (notFound k))), c').
Proof.
  intros Hr Hs Hu Hb.
  destruct r as [st p]. simpl in Hs. subst st.
  destruct (remove_204 _ _ _ _ _ Hr) as (i & d & Hid & Hd & ->).
  split.
  - unfold getById, findById. rewrite Hid. now rewrite lookup_delete_eq.
  - unfold update, findByIdAndUpdate, updateId. rewrite Hid, Hu, Hb.
    cbn [mbind result_bind]. now rewrite lookup_delete_eq.
Qed.

Lemma remove_then_not_found_witness :
  remove Users "6547a1b2c3d4e5f6a7b8c9d0" someUsers
  = (Response 204 NoBody, delete "6547a1b2c3d4e5f6a7b8c9d0" someUsers)
  /\ getById Users "6547a1b2c3d4e5f6a7b8c9d0"
       (delete "6547a1b2c3d4e5f6a7b8c9d0" someUsers)
     = (Response 404 (JsonError (Text (notFound Users))),
        delete "6547a1b2c3d4e5f6a7b8c9d0" someUsers).
Proof.
  split; [reflexivity|].
  apply (@remove_then_not_found utc Users "6547a1b2c3d4e5f6a7b8c9d0"
           {[ "status" := "off" ]} someUsers
           (delete "6547a1b2c3d4e5f6a7b8c9d0" someUsers)
           (Response 204 NoBody) {[ "status" := VStr "off" ]});
    reflexivity.
Defined.

(** ** Create *)

(** X7. [POST /] never overwrites: whatever the request, every document
    of the collection is there afterwards as it was; a 201 adds exactly
    one document, the one of the body of the answer, under an identifier
    that was free; any other answer is a 400 and leaves the collection as
    it was. *)
Theorem create_frame `{Runtime} (k : kind) (b : reqBody) (c : collection) :
  c ⊆ (create k b c).2
  /\ (status (create k b c).1 = 201 ->
      exists i d,
        body (create k b c).1 = Json i d
        /\ c !! i = None
        /\ (create k b c).2 = <[i := d]> c
        /\ size (create k b c).2 = S (size c))
  /\ (status (create k b c).1 <> 201 ->
      status (create k b c).1 = 400 /\ (create k b c).2 = c).
Proof.
  unfold create. rewrite save_unfold.
  destruct (assignId b c) as [i|e]; [|cbn; repeat split; try done].
  destruct (construct (schema k) b) as [d|e]; [|cbn; repeat split; try done].
  destruct (validate (schema k) d); [|cbn; repeat split; try done].
  destruct (c !! i) eqn:Hi; [cbn; repeat split; try done|].
  cbn. split; [|split].
  - now apply insert_subseteq.
  - intros _. exists i, d. repeat split; [assumption|].
    now apply map_size_insert_None.
  - intros Hs. now contradiction Hs.
Qed.

(** X8. A document that [POST /] has created is removed by [DELETE /:id]
    with the identifier of the answer, and the collection is then the one
    before the creation. *)
Theorem create_then_remove `{Runtime} (k : kind) (b : reqBody)
  (c c' : collection) (i : string) (d : doc) :
  create k b c = (Response 201 (Json i d), c') ->
  castObjectId i = Some i ->
  remove k i c' = (Response 204 NoBody, c).
Proof.
  intros Hc Hi.
  destruct (create_201 _ _ _ _ _ Hc) as (i0 & d0 & [= <- <-] & _ & _ & _ & Hfree & ->).
  unfold remove, findByIdAndDelete. rewrite Hi, lookup_insert_eq.
  rewrite delete_insert_eq. now rewrite delete_id.
Qed.

Lemma create_then_remove_witness :
  @create utc Students {[ "name" := "Bingo Heeler"; "age" := "7" ]} ∅
  = (Response 201
       (Json "6547a1b2c3d4e5f601234567"
          {[ "name" := VStr "Bingo Heeler"; "age" := VStr "7";
             "status" := VStr "on" ]}),
     {[ "6547a1b2c3d4e5f601234567" :=
          {[ "name" := VStr "Bingo Heeler"; "age" := VStr "7";
             "status" := VStr "on" ]} ]})
  /\ remove Students "6547a1b2c3d4e5f601234567"
       {[ "6547a1b2c3d4e5f601234567" :=
            {[ "name" := VStr "Bingo Heeler"; "age" := VStr "7";
               "status" := VStr "on" ]} ]}
     = (Response 204 NoBody, ∅).
Proof.
  split; [vm_compute; reflexivity|].
  apply (@create_then_remove utc Students
           {[ "name" := "Bingo Heeler"; "age" := "7" ]} ∅ _
           "6547a1b2c3d4e5f601234567"
           {[ "name" := VStr "Bingo Heeler"; "age" := VStr "7";
              "status" := VStr "on" ]});
    vm_compute; reflexivity.
Defined.

(** ** The document that create builds *)

Lemma construct_outside `{Runtime} (ps : list path) (b : reqBody) (d : doc)
  (f : string) :
  f ∉ pname <$> ps -> construct ps b = Ok d -> d !! f = None.
Proof.
  revert d. induction ps as [|p ps IH]; intros d Hf; simpl.
  - intros [= <-]. apply lookup_empty.
  - rewrite fmap_cons in Hf. apply not_elem_of_cons in Hf as [Hne Hf].
    destruct (construct ps b) as [d0|e]; [|discriminate].
    cbn [mbind result_bind]. specialize (IH d0 Hf eq_refl).
    destruct (b !! pname p) as [s|].
    + destruct (castValue p s) as [v|e]; [|discriminate].
      cbn [mbind result_bind]. intros [= <-]. now rewrite lookup_insert_ne.
    + destruct (pdefault p); intros [= <-]; [|assumption].
      now rewrite lookup_insert_ne.
Qed.

Lemma construct_string_path `{Runtime} (ps : list path) (b : reqBody)
  (d : doc) (p : path) :
  NoDup (pname <$> ps) ->
  p ∈ ps ->
  ptype p = TString ->
  construct ps b = Ok d ->
  d !! pname p
  = match b !! pname p with
    | Some s => Some (VStr s)
    | None => VStr <$> pdefault p
    end.
Proof.
  intros Hnd Hp Ht. revert d Hnd Hp.
  induction ps as [|q ps IH]; intros d Hnd Hp; simpl.
  - now apply elem_of_nil in Hp.
  - rewrite fmap_cons in Hnd. apply NoDup_cons in Hnd as [Hq Hnd].
    destruct (construct ps b) as [d0|e] eqn:Hd0; [|discriminate].
    cbn [mbind result_bind].
    apply elem_of_cons in Hp as [->|Hp].
    + destruct (b !! pname q) as [s|].
      * unfold castValue. rewrite Ht. cbn [mbind result_bind].
        intros [= <-]. apply lookup_insert_eq.
      * destruct (pdefault q) as [dflt|]; intros [= <-].
        -- apply lookup_insert_eq.
        -- apply (construct_outside ps b); assumption.
    + assert (Hne : pname q <> pname p).
      { intros Heq. apply Hq. rewrite Heq. now apply list_elem_of_fmap_2. }
      specialize (IH d0 Hnd Hp eq_refl).
      destruct (b !! pname q) as [t|].
      * destruct (castValue q t) as [w|e]; [|discriminate].
        cbn [mbind result_bind]. intros [= <-]. now rewrite lookup_insert_ne.
      * destruct (pdefault q); intros [= <-]; [|assumption].
        now rewrite lookup_insert_ne.
Qed.

Lemma construct_strings `{Runtime} (ps : list path) (b : reqBody) :
  Forall (fun p => ptype p = TString) ps ->
  exists d, construct ps b = Ok d.
Proof.
  induction 1 as [|p ps Hp _ [d Hd]]; simpl; [eauto|].
  rewrite Hd. cbn [mbind result_bind].
  destruct (b !! pname p) as [s|].
  - unfold castValue. rewrite Hp. cbn [mbind result_bind]. eauto.
  - destruct (pdefault p); eauto.
Qed.

(** X9. The document of a 201 holds, at every String path of the schema,
    the string of the body as it was sent, or the default of the path when
    the body has none, or nothing; a key of the body that is not a path of
    the schema, [_id] and the version key apart, is not in the document. *)
Theorem create_fields `{Runtime} (k : kind) (b : reqBody) (c c' : collection)
  (i : string) (d : doc) :
  create k b c = (Response 201 (Json i d), c') ->
  (forall p, p ∈ schema k -> ptype p = TString ->
     d !! pname p
     = match b !! pname p with
       | Some s => Some (VStr s)
       | None => VStr <$> pdefault p
       end)
  /\ (forall f, is_Some (b !! f) -> f ∉ pname <$> schema k ->
        f <> "_id" -> f <> "__v" -> d !! f = None).
Proof.
  intros Hc.
  destruct (create_201 _ _ _ _ _ Hc) as (i0 & d0 & [= <- <-] & _ & Hd & _).
  split.
  - intros p Hp Ht.
    now apply (construct_string_path (schema k) b d p (schema_NoDup k)).
  - intros f _ Hf _ _. now apply (construct_outside (schema k) b).
Qed.

Lemma create_fields_witness :
  @create utc Users {[ "nome" := "Caio Hobold"; "pwd" := "password123";
                       "role" := "root" ]} ∅
  = (Response 201
       (Json "6547a1b2c3d4e5f601234567"
          {[ "nome" := VStr "Caio Hobold"; "pwd" := VStr "password123" ]}),
     {[ "6547a1b2c3d4e5f601234567" :=
          {[ "nome" := VStr "Caio Hobold"; "pwd" := VStr "password123" ]} ]})
  /\ ({[ "nome" := VStr "Caio Hobold"; "pwd" := VStr "password123" ]} : doc)
       !! "role" = None.
Proof.
  assert (Hc : @create utc Users {[ "nome" := "Caio Hobold";
                                    "pwd" := "password123"; "role" := "root" ]} ∅
               = (Response 201
                    (Json "6547a1b2c3d4e5f601234567"
                       {[ "nome" := VStr "Caio Hobold";
                          "pwd" := VStr "password123" ]}),
                  {[ "6547a1b2c3d4e5f601234567" :=
                       {[ "nome" := VStr "Caio Hobold";
                          "pwd" := VStr "password123" ]} ]}))
    by (vm_compute; reflexivity).
  split; [exact Hc|].
  destruct (@create_fields utc Users _ _ _ _ _ Hc) as [_ Hout].
  apply Hout; [now exists "root"| |discriminate|discriminate].
  apply (bool_decide_unpack (_ ∉ _)). vm_compute. exact I.
Defined.

(** X10. A student created without [status] has the status [on]; one
    created with a status has that status. *)
Theorem students_status_default `{Runtime} (b : reqBody) (c c' : collection)
  (i : string) (d : doc) :
  create Students b c = (Response 201 (Json i d), c') ->
  d !! "status" = Some (VStr (default "on" (b !! "status"))).
Proof.
  intros Hc.
  destruct (create_201 _ _ _ _ _ Hc) as (i0 & d0 & [= <- <-] & _ & Hd & _).
  assert (Hin : Path "status" TString false (Some "on") ∈ schema Students).
  { unfold schema. rewrite !elem_of_cons.
    repeat (first [left; reflexivity | right]). }
  pose proof (construct_string_path (schema Students) b d _
                (schema_NoDup Students) Hin eq_refl Hd) as Hs.
  cbn [pname pdefault] in Hs. rewrite Hs.
  now destruct (b !! "status").
Qed.

Lemma students_status_default_witness :
  @create utc Students {[ "name" := "Bingo Heeler"; "age" := "7" ]} ∅
  = (Response 201
       (Json "6547a1b2c3d4e5f601234567"
          {[ "name" := VStr "Bingo Heeler"; "age" := VStr "7";
             "status" := VStr "on" ]}),
     {[ "6547a1b2c3d4e5f601234567" :=
          {[ "name" := VStr "Bingo Heeler"; "age" := VStr "7";
             "status" := VStr "on" ]} ]})
  /\ ({[ "name" := VStr "Bingo Heeler"; "age" := VStr "7";
         "status" := VStr "on" ]} : doc) !! "status"
     = Some (VStr (default "on"
                     (({[ "name" := "Bingo Heeler"; "age" := "7" ]} : reqBody)
                        !! "status"))).
Proof.
  assert (Hc : @create utc Students {[ "name" := "Bingo Heeler"; "age" := "7" ]} ∅
               = (Response 201
                    (Json "6547a1b2c3d4e5f601234567"
                       {[ "name" := VStr "Bingo Heeler"; "age" := VStr "7";
                          "status" := VStr "on" ]}),
                  {[ "6547a1b2c3d4e5f601234567" :=
                       {[ "name" := VStr "Bingo Heeler"; "age" := VStr "7";
                          "status" := VStr "on" ]} ]}))
    by (vm_compute; reflexivity).
  split; [exact Hc|].
  exact (@students_status_default utc _ _ _ _ _ Hc).
Defined.

(** ** The required paths of prof-saude *)

Lemma prof_saude_strings : Forall (fun p => ptype p = TString) (schema ProfSaude).
Proof. repeat constructor. Qed.

Lemma prof_saude_required (p : path) :
  p ∈ schema ProfSaude ->
  prequired p = true /\ pdefault p = None /\ ptype p = TString.
Proof.
  unfold schema. rewrite !elem_of_cons.
  intros Hp. repeat (destruct Hp as [->|Hp]; [repeat split|]).
  now apply elem_of_nil in Hp.
Qed.

(** X11. [POST /prof-saude] answers 400 and saves nothing when the body
    lacks one of [name], [specialty], [contact], [phone_number] and
    [status] or has it empty; when the body has the five of them, not
    empty, and the identifier is free, it answers 201 and saves the
    document. *)
Theorem prof_saude_create `{Runtime} (b : reqBody) (c : collection) :
  ((exists p, p ∈ schema ProfSaude
              /\ (b !! pname p = None \/ b !! pname p = Some "")) ->
   exists e,
     create ProfSaude b c = (Response 400 (JsonError (ErrMessage e)), c))
  /\ ((forall p, p ∈ schema ProfSaude ->
         exists s, b !! pname p = Some s /\ s <> "") ->
      forall i, assignId b c = Ok i -> c !! i = None ->
      exists d,
        create ProfSaude b c = (Response 201 (Json i d), <[i := d]> c)).
Proof.
  destruct (construct_strings (schema ProfSaude) b prof_saude_strings)
    as [d Hd].
  assert (Hpath : forall p, p ∈ schema ProfSaude ->
            d !! pname p = VStr <$> b !! pname p).
  { intros p Hp. destruct (prof_saude_required p Hp) as (_ & Hdef & Ht).
    rewrite (construct_string_path _ b d p (schema_NoDup ProfSaude) Hp Ht Hd).
    rewrite Hdef. now destruct (b !! pname p). }
  split.
  - intros (p & Hp & Hb).
    unfold create. rewrite save_unfold.
    destruct (assignId b c) as [i|e]; [|eauto].
    rewrite Hd.
    replace (validate (schema ProfSaude) d) with false; [eauto|].
    symmetry. apply not_true_is_false. intros Hv.
    unfold validate in Hv. rewrite forallb_forall in Hv.
    assert (Hin : In p (schema ProfSaude)) by now apply list_elem_of_In.
    specialize (Hv p Hin).
    destruct (prof_saude_required p Hp) as (Hreq & _ & _).
    rewrite Hreq, (Hpath p Hp) in Hv.
    destruct Hb as [Hb|Hb]; rewrite Hb in Hv; discriminate.
  - intros Hall i Hi Hfree.
    exists d. unfold create. rewrite save_unfold, Hi, Hd.
    replace (validate (schema ProfSaude) d) with true; [now rewrite Hfree|].
    symmetry. unfold validate. apply forallb_forall. intros p Hin.
    apply list_elem_of_In in Hin.
    destruct (Hall p Hin) as (s & Hs & Hne).
    rewrite (Hpath p Hin), Hs. cbn.
    destruct (String.eqb_spec s ""); [contradiction|].
    apply orb_true_r.
Qed.

(** ** Search by day, answer by answer *)

Lemma finds_select (k : kind) (c : collection)
  (test : doc -> bool) (P : doc -> Prop) (r : response * collection) :
  k <> Students ->
  r = match map_to_list (hydrate k <$> select test c) with
      | [] => (Response 404 (JsonError (Text (noneFound k))), c)
      | l => (Response 200 (JsonArray l), c)
      end ->
  (forall i d, c !! i = Some d -> test d = true <-> P d) ->
  finds k r c P.
Proof.
  intros Hk -> Htest. rewrite (hydrate_fmap_id k _ Hk). unfold finds.
  destruct (map_to_list (select test c)) as [|x l] eqn:El; cbn.
  - split; [reflexivity|]. left. split; [reflexivity|].
    intros i d Hd HP. apply (Htest i d Hd) in HP.
    pose proof (proj1 (select_nil test c) El i d Hd) as Hf. congruence.
  - split; [reflexivity|]. right. exists (x :: l).
    split; [reflexivity|]. split; [discriminate|].
    intros i d. rewrite <- El, select_elem_of.
    split; intros [Hd Ht]; (split; [assumption|]); now apply (Htest i d Hd).
Qed.

Lemma dateRange_test (a b : Z) (d : doc) :
  match d !! "date" with
  | Some (VDate t) => (a <=? t) && (t <? b)
  | _ => false
  end = true <-> dateWithin a b d.
Proof.
  unfold dateWithin. split.
  - destruct (d !! "date") as [[s|t|]|]; try discriminate.
    intros [H1 H2]%andb_true_iff. exists t. split; [reflexivity|]. lia.
  - intros (t & -> & Ht).
    apply andb_true_iff. split; [apply Z.leb_le|apply Z.ltb_lt]; lia.
Qed.

(** X12. [GET /events/search] with a date [YYYY-MM-DD] of the calendar
    answers with the events whose date is at or after 00:00:00.000 UTC of
    that day and before 23:59:59.000 UTC of it: 404 when there is none,
    else 200 with exactly them. *)
Theorem events_search_day `{Runtime} (v : string) (y m d : Z)
  (c : collection) :
  Moment.strict v = Some (y, m, d) ->
  finds Events (search Events (Some v) c) c
    (dateWithin (JSDate.daysFromCivil y m d * JSDate.msPerDay)
                (JSDate.daysFromCivil y m d * JSDate.msPerDay + 86399000)).
Proof.
  intros Hs.
  pose proof (search_unfold Events (Some v) c _ _
                (events_search_window v y m d Hs) eq_refl) as Hu.
  eapply finds_select; [discriminate|exact Hu|].
  intros i doc _. apply dateRange_test.
Qed.

Lemma events_search_day_witness :
  Moment.strict "2023-11-05" = Some (2023, 11, 5)
  /\ finds Events (@search utc Events (Some "2023-11-05") lateEvents) lateEvents
       (dateWithin (JSDate.daysFromCivil 2023 11 5 * JSDate.msPerDay)
                   (JSDate.daysFromCivil 2023 11 5 * JSDate.msPerDay + 86399000)).
Proof.
  split; [reflexivity|].
  apply (@events_search_day utc "2023-11-05" 2023 11 5 lateEvents).
  reflexivity.
Defined.

(** X13. [GET /appointments/search] with a date [YYYY-MM-DD] of the
    calendar answers with the appointments whose date is at or after the
    midnight of that day in the zone of the server and before the last
    millisecond of the day, the one that precedes the next midnight: 404
    when there is none, else 200 with exactly them. *)
Theorem appointments_search_day `{Runtime} (v : string) (y m d : Z)
  (c : collection) :
  Moment.strict v = Some (y, m, d) ->
  finds Appointments (search Appointments (Some v) c) c
    (dateWithin (localStartOfDay (JSDate.daysFromCivil y m d))
                (localStartOfDay (JSDate.daysFromCivil y m d + 1) - 1)).
Proof.
  intros Hs.
  pose proof (search_unfold Appointments (Some v) c _ _
                (appointments_search_window v y m d Hs) eq_refl) as Hu.
  eapply finds_select; [discriminate|exact Hu|].
  intros i doc _. apply dateRange_test.
Qed.

Lemma appointments_search_day_witness :
  Moment.strict "2023-11-05" = Some (2023, 11, 5)
  /\ finds Appointments
       (@search utc Appointments (Some "2023-11-05") lateAppointments)
       lateAppointments
       (dateWithin (@localStartOfDay utc (JSDate.daysFromCivil 2023 11 5))
                   (@localStartOfDay utc (JSDate.daysFromCivil 2023 11 5 + 1) - 1)).
Proof.
  split; [reflexivity|].
  apply (@appointments_search_day utc "2023-11-05" 2023 11 5 lateAppointments).
  reflexivity.
Defined.

(** X14. [GET /appointments/search] answers 400 with its own message,
    without a query to the store, exactly when the parameter is absent or
    is not a date [YYYY-MM-DD] of the calendar; the empty string is one of
    these. *)
Theorem appointments_search_guard `{Runtime} (q : option string)
  (c : collection) :
  search Appointments q c
  = (Response 400 (JsonError (Text (missingParam Appointments))), c)
  <-> (q = None \/ exists v, q = Some v /\ Moment.isValid v = false).
Proof.
  unfold search, searchConditions, Moment.isValid, falsy.
  destruct q as [v|]; [|split; auto].
  destruct (String.eqb_spec v "") as [->|Hv].
  - split; [|reflexivity]. intros _. right. exists "". now split.
  - destruct (Moment.strict v) as [ymd|] eqn:Hs.
    + split.
      * unfold find. cbn [castFilter mbind result_bind].
        destruct (map_to_list _); discriminate.
      * intros [[=]|(v' & [= <-] & Hv')]. rewrite Hs in Hv'. discriminate.
    + split; [|reflexivity]. intros _. right. exists v.
      rewrite Hs. now split.
Qed.

(** ** Search by name with a plain value *)

Lemma matchHere_literal_inv (v s : list ascii) :
  Regex.matchHere (map (fun c => (Regex.Lit c, Regex.One)) v) s = true ->
  exists m t, s = (m ++ t)%list /\ map toLower m = map toLower v.
Proof.
  revert s. induction v as [|c v IH]; intros s Hs.
  - exists [], s. now split.
  - cbn [map Regex.matchHere] in Hs.
    destruct s as [|x s]; [discriminate|].
    apply andb_true_iff in Hs as [Hx Hs]. cbn [Regex.atomOk] in Hx.
    apply Ascii.eqb_eq in Hx.
    destruct (IH s Hs) as (m & t & -> & Hm).
    exists (x :: m), t. split; [reflexivity|].
    cbn [map]. now rewrite Hm, Hx.
Qed.

Lemma search_inv (its : list (Regex.atom * Regex.quant)) (s : list ascii) :
  Regex.search its s = true ->
  exists p t, s = (p ++ t)%list /\ Regex.matchHere its t = true.
Proof.
  induction s as [|x s IH]; cbn [Regex.search]; intros Hs.
  - rewrite orb_false_r in Hs. exists [], []. now split.
  - apply orb_true_iff in Hs as [Hs|Hs].
    + exists [], (x :: s). now split.
    + destruct (IH Hs) as (p & t & -> & Ht).
      exists (x :: p), t. now split.
Qed.

(** The compiled pattern of a plain value, on printable names, is the
    test that the name holds the value up to case. *)
Lemma compile_plain_exact `{Runtime} (v : string) :
  plain v = true ->
  exists re,
    Regex.compile v = Some re
    /\ forall n, Regex.printable n = true -> re n = true <-> occursCI v n.
Proof.
  intros Hv. unfold Regex.compile. rewrite (parse_plain v Hv).
  eexists. split; [reflexivity|]. intros n Hn. cbv beta. rewrite Hn.
  split.
  - intros Hs. apply search_inv in Hs as (p & t & Hpt & Ht).
    apply matchHere_literal_inv in Ht as (m & t' & -> & Hm).
    exists p, m, t'. now split.
  - intros (p & m & t & Hpt & Hm). rewrite Hpt.
    apply search_skip. now apply matchHere_literal.
Qed.

(** X15. In the four route files that search by name, on a collection
    whose names are printable, [/search] with a value that is not empty
    and is made of plain characters, printable and without the operators
    of a pattern, answers with the documents whose name holds the value
    up to the case of letters, as Mongoose hydrates them: 404 when there
    is none, else 200 with exactly them, each once. *)
Theorem name_search_plain_exact `{Runtime} (k : kind) (v : string)
  (c : collection) :
  k ∈ nameKinds ->
  v <> "" ->
  plain v = true ->
  printableNames k c ->
  shows k (search k (Some v) c) c (nameHolds k v).
Proof.
  intros Hk Hv Hplain Hnames.
  destruct (compile_plain_exact v Hplain) as (re & Hre & Hexact).
  pose proof (name_conditions k v Hk Hv) as Hf.
  assert (Ht : castFilter (RegexI (searchParam k) v)
               = Ok (fun d : doc =>
                       match d !! searchParam k with
                       | Some (VStr s) => re s
                       | _ => false
                       end)).
  { unfold castFilter. now rewrite Hre. }
  eapply search_shows; [exact Hf|exact Ht|].
  intros i d Hd. unfold nameHolds. split.
  - destruct (d !! searchParam k) as [[n|t|]|] eqn:Hn; try discriminate.
    intros Hm. exists n. split; [reflexivity|].
    apply Hexact; [|assumption]. exact (Hnames i d n Hd Hn).
  - intros (n & Hn & Hocc). rewrite Hn.
    apply Hexact; [|assumption]. exact (Hnames i d n Hd Hn).
Qed.

Lemma name_search_plain_exact_witness :
  Students ∈ nameKinds
  /\ plain "HEEL" = true
  /\ printableNames Students (named Students "Bingo Heeler")
  /\ shows Students
       (@search utc Students (Some "HEEL") (named Students "Bingo Heeler"))
       (named Students "Bingo Heeler") (nameHolds Students "HEEL").
Proof.
  assert (Hk : Students ∈ nameKinds).
  { apply (bool_decide_unpack (_ ∈ _)). vm_compute. exact I. }
  assert (Hp : printableNames Students (named Students "Bingo Heeler")).
  { intros i d n Hd Hn. unfold named in Hd.
    apply lookup_singleton_Some in Hd as [_ <-].
    cbn [searchParam] in Hn.
    rewrite lookup_singleton_eq in Hn. now injection Hn as <-. }
  split; [exact Hk|]. split; [reflexivity|]. split; [exact Hp|].
  apply (@name_search_plain_exact utc Students "HEEL"
           (named Students "Bingo Heeler") Hk); [discriminate|reflexivity|exact Hp].
Defined.

(** ** The statuses of search *)

(** C4, as amended. [/search] answers 400 with its own message when the
    parameter is absent or empty and, in the appointments file, when it
    is not a date [YYYY-MM-DD] of the calendar.  For a parameter that the
    route file reads, a value that is not empty and that the store
    compiles as a pattern in the four files that search by name, a date
    [YYYY-MM-DD] of the calendar in the two that search by date, it
    answers 404 exactly when no document matches, and otherwise 200 with
    the non-empty sequence of the documents that match, as Mongoose
    hydrates them, each once: the documents whose name the pattern finds,
    which for a value of plain characters on printable names are those
    whose name holds the value up to the case of letters, and the
    documents whose date is in the day, from its midnight, in UTC
    for events and in the zone of the server for appointments, to an end
    within the last second before the next midnight.  Whatever the
    parameter, the status is 400, 404 or 200, a 200 carries a non-empty
    array, and the collection stays. *)
Theorem search_status `{Runtime} (k : kind) (q : option string) (c : collection) :
  (falsy q = true ->
   search k q c = (Response 400 (JsonError (Text (missingParam k))), c))
  /\ (forall v,
        k = Appointments -> q = Some v -> Moment.strict v = None ->
        search k q c = (Response 400 (JsonError (Text (missingParam k))), c))
  /\ (forall v re,
        k ∈ nameKinds -> q = Some v -> v <> "" -> Regex.compile v = Some re ->
        shows k (search k q c) c
          (fun d => exists n,
             d !! searchParam k = Some (VStr n) /\ re n = true))
  /\ (forall v,
        k ∈ nameKinds -> q = Some v -> v <> "" -> plain v = true ->
        printableNames k c ->
        shows k (search k q c) c (nameHolds k v))
  /\ (forall v y m d,
        k = Events -> q = Some v -> Moment.strict v = Some (y, m, d) ->
        exists ms,
          0 <= ms <= 1000
          /\ shows k (search k q c) c
               (dateWithin
                  (JSDate.daysFromCivil y m d * JSDate.msPerDay)
                  ((JSDate.daysFromCivil y m d + 1) * JSDate.msPerDay - ms)))
  /\ (forall v y m d,
        k = Appointments -> q = Some v -> Moment.strict v = Some (y, m, d) ->
        exists ms,
          0 <= ms <= 1000
          /\ shows k (search k q c) c
               (dateWithin
                  (localStartOfDay (JSDate.daysFromCivil y m d))
                  (localStartOfDay (JSDate.daysFromCivil y m d + 1) - ms)))
  /\ (status (search k q c).1 = 400
      \/ status (search k q c).1 = 404
      \/ status (search k q c).1 = 200)
  /\ (status (search k q c).1 = 200 ->
      exists l, body (search k q c).1 = JsonArray l /\ l <> [])
  /\ (search k q c).2 = c.
Proof.
  split; [|split; [|split; [|split; [|split; [|split; [|split; [|split]]]]]]].
  - intros Hq. unfold search, searchConditions.
    destruct q as [v|]; [|reflexivity]. now rewrite Hq.
  - intros v -> -> Hs. unfold search, searchConditions.
    destruct (falsy (Some v)); [reflexivity|]. now rewrite Hs.
  - intros v re Hk -> Hv Hre.
    eapply search_shows; [exact (name_conditions k v Hk Hv)| |].
    + unfold castFilter. rewrite Hre. reflexivity.
    + intros i d _. cbv beta. split.
      * destruct (d !! searchParam k) as [[n|t|]|]; try discriminate. eauto.
      * intros (n & -> & Hn). exact Hn.
  - intros v Hk -> Hv Hplain Hnames.
    destruct (compile_plain_exact v Hplain) as (re & Hre & Hexact).
    eapply search_shows; [exact (name_conditions k v Hk Hv)| |].
    + unfold castFilter. rewrite Hre. reflexivity.
    + intros i d Hd. cbv beta. unfold nameHolds. split.
      * destruct (d !! searchParam k) as [[n|t|]|] eqn:Hn; try discriminate.
        intros Hm. exists n. split; [reflexivity|].
        apply Hexact; [|assumption]. exact (Hnames i d n Hd Hn).
      * intros (n & Hn & Hocc). rewrite Hn.
        apply Hexact; [|assumption]. exact (Hnames i d n Hd Hn).
  - intros v y m d -> -> Hs. exists 1000. split; [lia|].
    eapply search_shows; [exact (events_search_window v y m d Hs)|reflexivity|].
    intros i x _.
    replace ((JSDate.daysFromCivil y m d + 1) * JSDate.msPerDay - 1000)
      with (JSDate.daysFromCivil y m d * JSDate.msPerDay + 86399000)
      by (unfold JSDate.msPerDay; lia).
    apply dateRange_test.
  - intros v y m d -> -> Hs. exists 1. split; [lia|].
    eapply search_shows;
      [exact (appointments_search_window v y m d Hs)|reflexivity|].
    intros i x _. apply dateRange_test.
  - unfold search. destruct (searchConditions k q) as [f|]; [|cbn; auto].
    destruct (find k f c) as [[|x l]|e]; cbn; auto.
  - unfold search. destruct (searchConditions k q) as [f|]; [|discriminate].
    destruct (find k f c) as [[|x l]|e]; cbn; try discriminate.
    intros _. exists (x :: l). split; [reflexivity|discriminate].
  - unfold search. destruct (searchConditions k q) as [f|]; [|reflexivity].
    now destruct (find k f c) as [[|x l]|e].
Qed.

(** C4, the claim as stated fails: [GET /appointments/search] answers a
    parameter that is present and not empty with 400 when it is not a
    date, whatever the collection holds. *)
Lemma search_not_a_date :
  falsy (Some "not-a-date") = false
  /\ @search utc Appointments (Some "not-a-date") lateAppointments
     = (Response 400 (JsonError (Text (missingParam Appointments))),
        lateAppointments).
Proof. split; reflexivity. Qed.

(** ** The routers *)

Import Express.

Ltac eval_segments :=
  repeat match goal with
         | |- context [String.eqb (lowerString ?a) (lowerString ?b)] =>
             let x := fresh "x" in
             set (x := String.eqb (lowerString a) (lowerString b));
             vm_compute in x; subst x
         end.

(** Under the prefix of a route file, the layers of that file decide. *)
Lemma useAll_model `{Runtime} (k : kind) (req : request) (pre : string)
  (sub : list string) (st : database) :
  sameSegment pre (prefixOf k) = true ->
  useAll mounts req pre sub st
  = match route table (rmethod req) sub with
    | Handler a param =>
        (Answer (run k a param req (st k)).1,
         setCollection k (run k a param req (st k)).2 st)
    | BadParam => (BadRequest, st)
    | NoLayer => (NoRoute, st)
    end.
Proof.
  unfold sameSegment. intros Hpre%String.eqb_eq.
  unfold mounts. cbn [useAll]. unfold sameSegment. rewrite Hpre.
  destruct (route table (rmethod req) sub) as [a param| |];
    destruct k; cbn [prefixOf]; eval_segments; cbv iota;
    try reflexivity;
    now destruct (run _ a param req _).
Qed.

Lemma search_keeps `{Runtime} (k : kind) (q : option string) (c : collection) :
  (search k q c).2 = c.
Proof.
  unfold search. destruct (searchConditions k q) as [f|]; [|reflexivity].
  destruct (find k f c) as [[|]|]; reflexivity.
Qed.

Lemma getById_keeps (k : kind) (id : string) (c : collection) :
  (getById k id c).2 = c.
Proof.
  unfold getById. destruct (findById k id c) as [[[]|]|]; reflexivity.
Qed.

Lemma setCollection_same (k : kind) (st : database) (k' : kind) :
  setCollection k (st k) st k' = st k'.
Proof. unfold setCollection. case_bool_decide; congruence. Qed.

Lemma route_search `{Runtime} (seg : string) :
  sameSegment seg "search" = true ->
  route table GET [seg] = Handler Search None.
Proof.
  intros Hs. cbn [route table]. rewrite bool_decide_true by reflexivity.
  cbn [matchPath]. now rewrite Hs.
Qed.

Lemma objectId_not_search (s i : string) :
  castObjectId s = Some i -> sameSegment s "search" = false /\ s <> "".
Proof.
  unfold castObjectId.
  destruct (Z.of_nat (String.length s) =? 24) eqn:Hlen; [|discriminate].
  intros _. apply Z.eqb_eq in Hlen. split.
  - unfold sameSegment. apply String.eqb_neq. intros Heq.
    apply (f_equal String.length) in Heq.
    rewrite !lowerString_length in Heq. cbn in Heq. lia.
  - intros ->. cbn in Hlen. lia.
Qed.

(** X16. [/search] is registered before [/:id]: a GET on
    [/api/<prefix>/search], with the three segments spelt in any case of
    letters and without escapes, is answered by the search handler of the
    route file of that prefix, with the parameter of that file, and no
    collection changes. *)
Theorem search_route_first `{Runtime} (k : kind) (a pre seg : string)
  (q : gmap string string) (b : reqBody) (st : database) :
  sameSegment a "api" = true ->
  sameSegment pre (prefixOf k) = true ->
  sameSegment seg "search" = true ->
  (app (Request GET [a; pre; seg] q b) st).1
  = Answer (search k (q !! searchParam k) (st k)).1
  /\ forall k', (app (Request GET [a; pre; seg] q b) st).2 k' = st k'.
Proof.
  intros Ha Hpre Hseg. unfold app. cbn [rpath]. rewrite Ha.
  rewrite (useAll_model k _ pre [seg] st Hpre). cbn [rmethod].
  rewrite (route_search seg Hseg). cbn [run rquery fst snd].
  split; [reflexivity|].
  intros k'. rewrite search_keeps. apply setCollection_same.
Qed.

Lemma search_route_first_witness :
  sameSegment "API" "api" = true
  /\ sameSegment "students" (prefixOf Students) = true
  /\ sameSegment "Search" "search" = true
  /\ (@app utc (Request GET ["API"; "students"; "Search"]
                  {[ "name" := "bingo" ]} ∅) studentsDb).1
     = Answer (@search utc Students
                 (({[ "name" := "bingo" ]} : gmap string string)
                    !! searchParam Students)
                 (studentsDb Students)).1.
Proof.
  split; [reflexivity|]. split; [reflexivity|]. split; [reflexivity|].
  exact (proj1 (@search_route_first utc Students "API" "students" "Search"
                  {[ "name" := "bingo" ]} ∅ studentsDb
                  eq_refl eq_refl eq_refl)).
Defined.

(** The literal is compared with the segment as it was sent: with an
    escape in it, [%73earch] is not [search], and the request goes to
    [GET /:id], which decodes it and answers that [search] is no
    ObjectId. *)
Example escaped_search_is_an_id :
  sameSegment "%73earch" "search" = false
  /\ @decodeParam utc "%73earch" = Some "search"
  /\ (@app utc (Request GET ["api"; "users"; "%73earch"] {[ "nome" := "caio" ]} ∅)
        usersDb).1
     = Answer (Response 400 (JsonError (ErrMessage (CastError "_id")))).
Proof.
  split; [reflexivity|]. split; [reflexivity|].
  unfold app. cbn [rpath].
  replace (sameSegment "api" "api") with true by reflexivity.
  rewrite (useAll_model Users _ "users" ["%73earch"] usersDb eq_refl).
  reflexivity.
Qed.

(** A segment that does not decode is answered with 400 by Express, under
    every method, and no handler runs. *)
Example undecodable_segment :
  forall m : method,
    @app utc (Request m ["api"; "users"; "%zz"] ∅ ∅) usersDb
    = (BadRequest, usersDb).
Proof. intros []; reflexivity. Qed.

Lemma isHex_not_percent (c : ascii) : isHex c = true -> Ascii.eqb c "%" = false.
Proof.
  destruct c as [[] [] [] [] [] [] [] []]; vm_compute; congruence.
Qed.

Lemma percentDecode_hex (l : list ascii) :
  forallb isHex l = true -> percentDecode l = Decoded l.
Proof.
  induction l as [|c l IH]; [reflexivity|].
  cbn [forallb percentDecode]. intros [Hc Hl]%andb_true_iff.
  now rewrite (isHex_not_percent c Hc), (IH Hl).
Qed.

(** An identifier is sent as it is: it has no escape to decode. *)
Lemma decodeParam_objectId `{Runtime} (s i : string) :
  castObjectId s = Some i -> decodeParam s = Some s.
Proof.
  unfold castObjectId, decodeParam.
  destruct (_ && _) eqn:E; [|discriminate]. intros _.
  apply andb_true_iff in E as [_ Hhex].
  rewrite (percentDecode_hex _ Hhex).
  now rewrite string_of_list_ascii_of_string.
Qed.

(** X17. The literal [/search] hides no document: a GET on
    [/api/<prefix>/<id>] with an identifier that casts to ObjectId is
    answered by [GET /:id] of the route file of that prefix. *)
Theorem objectId_reaches_getById `{Runtime} (k : kind) (a pre id i : string)
  (q : gmap string string) (b : reqBody) (st : database) :
  sameSegment a "api" = true ->
  sameSegment pre (prefixOf k) = true ->
  castObjectId id = Some i ->
  (app (Request GET [a; pre; id] q b) st).1 = Answer (getById k id (st k)).1
  /\ forall k', (app (Request GET [a; pre; id] q b) st).2 k' = st k'.
Proof.
  intros Ha Hpre Hid. unfold app. cbn [rpath]. rewrite Ha.
  rewrite (useAll_model k _ pre [id] st Hpre). cbn [rmethod].
  destruct (objectId_not_search id i Hid) as [Hns Hne].
  assert (Hr : route table GET [id] = Handler Get (Some id)).
  { cbn [route table]. cbn [matchPath]. rewrite Hns.
    destruct (String.eqb_spec id ""); [contradiction|].
    rewrite (decodeParam_objectId id i Hid).
    now rewrite bool_decide_true by reflexivity. }
  rewrite Hr. cbn [run default fst snd from_option].
  split; [reflexivity|].
  intros k'. rewrite getById_keeps. apply setCollection_same.
Qed.

Lemma objectId_reaches_getById_witness :
  sameSegment "api" "api" = true
  /\ sameSegment "users" (prefixOf Users) = true
  /\ castObjectId "6547A1B2C3D4E5F6A7B8C9D0" = Some "6547a1b2c3d4e5f6a7b8c9d0"
  /\ (@app utc (Request GET ["api"; "users"; "6547A1B2C3D4E5F6A7B8C9D0"] ∅ ∅)
        usersDb).1
     = Answer (getById Users "6547A1B2C3D4E5F6A7B8C9D0" (usersDb Users)).1.
Proof.
  split; [reflexivity|]. split; [reflexivity|]. split; [reflexivity|].
  exact (proj1 (@objectId_reaches_getById utc Users "api" "users"
                  "6547A1B2C3D4E5F6A7B8C9D0" "6547a1b2c3d4e5f6a7b8c9d0" ∅ ∅
                  usersDb eq_refl eq_refl eq_refl)).
Defined.

Lemma getAll_keeps `{Runtime} (k : kind) (c : collection) : (getAll k c).2 = c.
Proof. reflexivity. Qed.

Lemma route_get `{Runtime} (sub : list string) (a : action)
  (param : option string) :
  route table GET sub = Handler a param -> a = Search \/ a = List \/ a = Get.
Proof.
  unfold table. cbn [route].
  rewrite !bool_decide_true by reflexivity.
  rewrite !bool_decide_false by discriminate.
  repeat match goal with
         | |- context [matchPath ?p sub] =>
             destruct (matchPath p sub) as [[raw|]|]
         | |- context [decodeParam ?r] => destruct (decodeParam r)
         end;
    intros [= <- _] || discriminate; auto.
Qed.

Lemma run_get_keeps `{Runtime} (k : kind) (a : action) (param : option string)
  (req : request) (c : collection) :
  a = Search \/ a = List \/ a = Get -> (run k a param req c).2 = c.
Proof.
  intros [Ha|[Ha|Ha]]; subst a; cbn [run].
  - apply search_keeps.
  - apply getAll_keeps.
  - apply getById_keeps.
Qed.

Lemma useAll_get `{Runtime} (ms : list (string * target)) (req : request)
  (seg : string) (sub : list string) (st : database) (k' : kind) :
  rmethod req = GET -> (useAll ms req seg sub st).2 k' = st k'.
Proof.
  intros Hm. induction ms as [|[pre t] ms IH]; cbn [useAll]; [reflexivity|].
  destruct (sameSegment seg pre); [|exact IH].
  destruct t as [k|]; [|reflexivity].
  rewrite Hm.
  destruct (route table GET sub) as [a param| |] eqn:Hr;
    [|reflexivity|exact IH].
  pose proof (run_get_keeps k a param req (st k) (route_get _ _ _ Hr)) as Hk.
  destruct (run k a param req (st k)) as [r c]. cbn in Hk. subst c.
  apply setCollection_same.
Qed.

(** X18. A GET changes nothing: whatever its path, its query and its
    body, every collection is afterwards the one it was. *)
Theorem get_changes_nothing `{Runtime} (req : request) (st : database)
  (k : kind) :
  rmethod req = GET -> (app req st).2 k = st k.
Proof.
  intros Hm. unfold app.
  destruct (rpath req) as [|a [|seg sub]]; try reflexivity.
  - destruct (sameSegment a "api"); [reflexivity|].
    now destruct (sameSegment a "api-docs").
  - destruct (sameSegment a "api").
    + now apply useAll_get.
    + now destruct (sameSegment a "api-docs").
Qed.

Lemma get_changes_nothing_witness :
  rmethod (Request GET ["api"; "users"; "search"] {[ "nome" := "caio" ]} ∅) = GET
  /\ (@app utc (Request GET ["api"; "users"; "search"] {[ "nome" := "caio" ]} ∅)
        usersDb).2 Users
     = usersDb Users.
Proof.
  split; [reflexivity|].
  exact (@get_changes_nothing utc
           (Request GET ["api"; "users"; "search"] {[ "nome" := "caio" ]} ∅)
           usersDb Users eq_refl).
Defined.

Lemma useAll_other `{Runtime} (ms : list (string * target)) (req : request)
  (seg : string) (sub : list string) (st : database) (k' : kind) :
  Forall (fun m => m.2 = Model k' -> sameSegment seg m.1 = false) ms ->
  (useAll ms req seg sub st).2 k' = st k'.
Proof.
  induction 1 as [|[pre t] ms Hm _ IH]; cbn [useAll]; [reflexivity|].
  destruct (sameSegment seg pre) eqn:Hseg; [|exact IH].
  destruct t as [k|]; [|reflexivity].
  destruct (route table (rmethod req) sub) as [a param| |];
    [|reflexivity|exact IH].
  destruct (run k a param req (st k)) as [r c]. cbn [snd].
  unfold setCollection. case_bool_decide as Hk; [|reflexivity].
  subst k'. cbn in Hm. rewrite (Hm eq_refl) in Hseg. discriminate.
Qed.

(** X19. A request changes no collection but the one of the route file
    under whose prefix its path lies: the collection of a model stays as
    it was under every request whose second segment is not the prefix of
    that model. *)
Theorem other_collections_stay `{Runtime} (m : method) (a pre : string)
  (sub : list string) (q : gmap string string) (b : reqBody) (st : database)
  (k : kind) :
  sameSegment pre (prefixOf k) = false ->
  (app (Request m (a :: pre :: sub) q b) st).2 k = st k.
Proof.
  intros Hpre. unfold app. cbn [rpath].
  destruct (sameSegment a "api"); [|now destruct (sameSegment a "api-docs")].
  apply useAll_other. unfold mounts.
  repeat constructor; cbn [fst snd]; intros Ht;
    try discriminate Ht; injection Ht as <-; exact Hpre.
Qed.

Lemma other_collections_stay_witness :
  sameSegment "users" (prefixOf Teachers) = false
  /\ (@app utc (Request DELETE ["api"; "users"; "6547a1b2c3d4e5f6a7b8c9d0"] ∅ ∅)
        usersDb).2 Teachers
     = usersDb Teachers.
Proof.
  split; [reflexivity|].
  exact (@other_collections_stay utc DELETE "api" "users"
           ["6547a1b2c3d4e5f6a7b8c9d0"] ∅ ∅ usersDb Teachers eq_refl).
Defined.

(** ** Create, delete and search together *)

Lemma name_path (k : kind) :
  k ∈ nameKinds ->
  exists p, p ∈ schema k /\ pname p = searchParam k /\ ptype p = TString.
Proof.
  unfold nameKinds. rewrite !elem_of_cons.
  intros Hk. repeat (destruct Hk as [->|Hk]);
    try (eexists; split; [apply list_elem_of_here|split; reflexivity]).
  now apply elem_of_nil in Hk.
Qed.

(** X20. In the four route files that search by name, a document created
    from a body with a name is found afterwards by [/search] with every
    value that is not empty, is made of plain characters and that the name
    holds up to the case of letters. *)
Theorem create_then_search `{Runtime} (k : kind) (b : reqBody)
  (c c' : collection) (i : string) (d : doc) (n v : string) :
  k ∈ nameKinds ->
  create k b c = (Response 201 (Json i d), c') ->
  b !! searchParam k = Some n ->
  v <> "" ->
  plain v = true ->
  occursCI v n ->
  exists l, search k (Some v) c' = (Response 200 (JsonArray l), c')
            /\ (i, d) ∈ l.
Proof.
  intros Hk Hc Hn Hv Hplain Hocc.
  destruct (create_201 _ _ _ _ _ Hc) as (i0 & d0 & [= <- <-] & _ & Hd & _ & _ & ->).
  destruct (name_path k Hk) as (p & Hp & Hname & Ht).
  pose proof (construct_string_path (schema k) b d p (schema_NoDup k) Hp Ht Hd)
    as Hdn.
  rewrite Hname, Hn in Hdn.
  destruct (compile_plain v n Hplain Hocc) as (re & Hre & Hmatch).
  pose proof (name_conditions k v Hk Hv) as Hf.
  assert (Hcast : castFilter (RegexI (searchParam k) v)
                  = Ok (fun d : doc =>
                          match d !! searchParam k with
                          | Some (VStr s) => re s
                          | _ => false
                          end)).
  { unfold castFilter. now rewrite Hre. }
  rewrite (search_unfold k (Some v) _ _ _ Hf Hcast).
  match goal with |- context [map_to_list ?m] =>
    assert (Hin : (i, d) ∈ map_to_list m)
  end.
  { apply hydrated_elem_of. exists d. split; [apply lookup_insert_eq|].
    split; [now rewrite Hdn|].
    symmetry. exact (hydrate_construct k b d Hd). }
  destruct (map_to_list _) as [|x l].
  - now apply elem_of_nil in Hin.
  - eauto.
Qed.

Lemma create_then_search_witness :
  Students ∈ nameKinds
  /\ plain "bingo" = true
  /\ occursCI "bingo" "Bingo Heeler"
  /\ exists l,
       @search utc Students (Some "bingo")
         {[ "6547a1b2c3d4e5f601234567" :=
              {[ "name" := VStr "Bingo Heeler"; "age" := VStr "7";
                 "status" := VStr "on" ]} ]}
       = (Response 200 (JsonArray l),
          {[ "6547a1b2c3d4e5f601234567" :=
               {[ "name" := VStr "Bingo Heeler"; "age" := VStr "7";
                  "status" := VStr "on" ]} ]})
       /\ ("6547a1b2c3d4e5f601234567",
           {[ "name" := VStr "Bingo Heeler"; "age" := VStr "7";
              "status" := VStr "on" ]}) ∈ l.
Proof.
  assert (Hk : Students ∈ nameKinds).
  { apply (bool_decide_unpack (_ ∈ _)). vm_compute. exact I. }
  assert (Ho : occursCI "bingo" "Bingo Heeler").
  { exists [], (list_ascii_of_string "Bingo"), (list_ascii_of_string " Heeler").
    split; reflexivity. }
  split; [exact Hk|]. split; [reflexivity|]. split; [exact Ho|].
  apply (@create_then_search utc Students
           {[ "name" := "Bingo Heeler"; "age" := "7" ]} ∅ _
           "6547a1b2c3d4e5f601234567" _ "Bingo Heeler" "bingo" Hk);
    try (vm_compute; reflexivity); try assumption.
  discriminate.
Defined.

(** X21. A document that [DELETE /:id] has removed is in no later answer
    of [/search] and of [GET /]. *)
Theorem removed_is_not_listed `{Runtime} (k : kind) (id i : string)
  (c c' : collection) (r : response) :
  remove k id c = (r, c') ->
  status r = 204 ->
  castObjectId id = Some i ->
  forall (q : option string) (l : list (string * doc)) (d : doc),
    body (search k q c').1 = JsonArray l \/ body (getAll k c').1 = JsonArray l ->
    (i, d) ∉ l.
Proof.
  intros Hr Hs Hid q l d Hl Hin.
  destruct r as [st p]. simpl in Hs. subst st.
  destruct (remove_204 _ _ _ _ _ Hr) as (i0 & d0 & Hid0 & _ & ->).
  rewrite Hid in Hid0. injection Hid0 as <-.
  assert (Hgone : delete i c !! i = None) by apply lookup_delete_eq.
  destruct Hl as [Hl|Hl].
  - unfold search in Hl.
    destruct (searchConditions k q) as [f|]; [|discriminate].
    unfold find in Hl.
    destruct (castFilter f) as [test|e]; [|discriminate].
    cbn [mbind result_bind] in Hl.
    destruct (map_to_list (hydrate k <$> select test (delete i c)))
      as [|x l'] eqn:El; [discriminate|].
    cbn in Hl. injection Hl as <-. rewrite <- El in Hin.
    apply hydrated_elem_of in Hin as (d1 & Hd & _). congruence.
  - unfold getAll, find in Hl. cbn in Hl. injection Hl as <-.
    apply hydrated_elem_of in Hin as (d1 & Hd & _). congruence.
Qed.

Lemma removed_is_not_listed_witness :
  remove Users "6547a1b2c3d4e5f6a7b8c9d0" someUsers
  = (Response 204 NoBody, delete "6547a1b2c3d4e5f6a7b8c9d0" someUsers)
  /\ castObjectId "6547a1b2c3d4e5f6a7b8c9d0" = Some "6547a1b2c3d4e5f6a7b8c9d0"
  /\ forall (q : option string) (l : list (string * doc)) (d : doc),
       body (@search utc Users q
               (delete "6547a1b2c3d4e5f6a7b8c9d0" someUsers)).1 = JsonArray l
       \/ body (@getAll utc Users
                  (delete "6547a1b2c3d4e5f6a7b8c9d0" someUsers)).1 = JsonArray l ->
       ("6547a1b2c3d4e5f6a7b8c9d0", d) ∉ l.
Proof.
  split; [reflexivity|]. split; [reflexivity|].
  exact (@removed_is_not_listed utc Users "6547a1b2c3d4e5f6a7b8c9d0"
           "6547a1b2c3d4e5f6a7b8c9d0" someUsers _ _ eq_refl eq_refl eq_refl).
Defined.
